(** * User_Server/main.py: the account service over its SQLite table

    A shallow embedding of the four FastAPI handlers of [main.py]
    ([get_users], [get_user], [create_user], [login]), of [hash_password]
    and of the [users] table they share, followed by the properties of the
    service.

    Conventions.
    - Text in the table and in the answers is UTF-8, a [string] of bytes:
      SQLite compares TEXT values under the BINARY collation byte by
      byte, and string concatenation is concatenation of the encodings.
    - The handlers come in two layers.  The first ([hash_password],
      [create_user], [login], [serve] at top level) takes request
      strings already encoded and a table whose ids are below the end of
      the 64-bit range.  Module [Py] has the same handlers as Python
      runs them: on [str] values, lists of code points that may hold a
      lone surrogate, with the exceptions that encoding a string
      (UnicodeEncodeError) and inserting into a full table
      (OperationalError) raise; on strings that encode and a table that
      is not full they are the handlers of the first layer.
    - A Python [int] is a [Z].
    - The database file is the state; every handler takes the state and
      returns the new state with its outcome. *)

From Stdlib Require Import ZArith List String Ascii Bool Sorted Lia.
Import ListNotations.

Set Warnings "-register-all".

Local Open Scope Z_scope.
Local Open Scope string_scope.
Local Open Scope list_scope.

(** ** hashlib.sha256 (FIPS 180-4), on 32-bit words held in [Z] *)

Module Sha256.

Definition wrap32 (x : Z) : Z := x mod 4294967296.

Definition add32 (x y : Z) : Z := wrap32 (x + y).

Definition shr (n x : Z) : Z := Z.shiftr x n.

Definition rotr (n x : Z) : Z :=
  Z.lor (Z.shiftr x n) (wrap32 (Z.shiftl x (32 - n))).

Definition not32 (x : Z) : Z := Z.lxor x 4294967295.

Definition Ch (x y z : Z) : Z := Z.lxor (Z.land x y) (Z.land (not32 x) z).

Definition Maj (x y z : Z) : Z :=
  Z.lxor (Z.lxor (Z.land x y) (Z.land x z)) (Z.land y z).

Definition bsig0 (x : Z) : Z := Z.lxor (Z.lxor (rotr 2 x) (rotr 13 x)) (rotr 22 x).
Definition bsig1 (x : Z) : Z := Z.lxor (Z.lxor (rotr 6 x) (rotr 11 x)) (rotr 25 x).
Definition ssig0 (x : Z) : Z := Z.lxor (Z.lxor (rotr 7 x) (rotr 18 x)) (shr 3 x).
Definition ssig1 (x : Z) : Z := Z.lxor (Z.lxor (rotr 17 x) (rotr 19 x)) (shr 10 x).

(** The sixty-four round constants, in decimal. *)
Definition round_constants : list Z :=
  [ 1116352408; 1899447441; 3049323471; 3921009573; 961987163; 1508970993;
    2453635748; 2870763221; 3624381080; 310598401; 607225278; 1426881987;
    1925078388; 2162078206; 2614888103; 3248222580; 3835390401; 4022224774;
    264347078; 604807628; 770255983; 1249150122; 1555081692; 1996064986;
    2554220882; 2821834349; 2952996808; 3210313671; 3336571891; 3584528711;
    113926993; 338241895; 666307205; 773529912; 1294757372; 1396182291;
    1695183700; 1986661051; 2177026350; 2456956037; 2730485921; 2820302411;
    3259730800; 3345764771; 3516065817; 3600352804; 4094571909; 275423344;
    430227734; 506948616; 659060556; 883997877; 958139571; 1322822218;
    1537002063; 1747873779; 1955562222; 2024104815; 2227730452; 2361852424;
    2428436474; 2756734187; 3204031479; 3329325298 ].

(** The chaining value: eight 32-bit words. *)
Record chain : Type := Chain {
  c0 : Z; c1 : Z; c2 : Z; c3 : Z; c4 : Z; c5 : Z; c6 : Z; c7 : Z
}.

Definition initial_chain : chain :=
  Chain 1779033703 3144134277 1013904242 2773480762
        1359893119 2600822924 528734635 1541459225.

(** Padding: a 1 bit, zeros up to 56 modulo 64 bytes, the bit length on
    eight bytes, most significant first. *)
Definition be_bytes (width : nat) (x : Z) : list Z :=
  map (fun i => (x / 256 ^ Z.of_nat i) mod 256) (rev (seq 0 width)).

Definition pad (msg : list Z) : list Z :=
  let len := Z.of_nat (List.length msg) in
  msg ++ [128] ++ repeat 0 (Z.to_nat ((55 - len) mod 64)) ++ be_bytes 8 (8 * len).

Fixpoint be_words (bs : list Z) : list Z :=
  match bs with
  | b3 :: b2 :: b1 :: b0 :: rest =>
      (((b3 * 256 + b2) * 256 + b1) * 256 + b0) :: be_words rest
  | _ => []
  end.

Fixpoint blocks (ws : list Z) : list (list Z) :=
  match ws with
  | w0 :: w1 :: w2 :: w3 :: w4 :: w5 :: w6 :: w7 ::
    w8 :: w9 :: w10 :: w11 :: w12 :: w13 :: w14 :: w15 :: rest =>
      [w0; w1; w2; w3; w4; w5; w6; w7; w8; w9; w10; w11; w12; w13; w14; w15]
        :: blocks rest
  | _ => []
  end.

(** The message schedule: the sixteen words of the block, then forty-eight
    more, each from four earlier ones. *)
Fixpoint extend (n : nat) (W : list Z) : list Z :=
  match n with
  | O => W
  | S n' =>
      let t := List.length W in
      let at_ (back : nat) := nth (t - back) W 0 in
      extend n'
        (W ++ [add32 (add32 (ssig1 (at_ 2%nat)) (at_ 7%nat))
                     (add32 (ssig0 (at_ 15%nat)) (at_ 16%nat))])
  end.

Definition schedule (block : list Z) : list Z := extend 48 block.

Definition round (s : chain) (kw : Z * Z) : chain :=
  let '(k, w) := kw in
  let t1 := add32 (add32 (add32 (c7 s) (bsig1 (c4 s)))
                         (add32 (Ch (c4 s) (c5 s) (c6 s)) k)) w in
  let t2 := add32 (bsig0 (c0 s)) (Maj (c0 s) (c1 s) (c2 s)) in
  Chain (add32 t1 t2) (c0 s) (c1 s) (c2 s) (add32 (c3 s) t1) (c4 s) (c5 s) (c6 s).

Definition compress (h : chain) (block : list Z) : chain :=
  let s := fold_left round (combine round_constants (schedule block)) h in
  Chain (add32 (c0 h) (c0 s)) (add32 (c1 h) (c1 s))
        (add32 (c2 h) (c2 s)) (add32 (c3 h) (c3 s))
        (add32 (c4 h) (c4 s)) (add32 (c5 h) (c5 s))
        (add32 (c6 h) (c6 s)) (add32 (c7 h) (c7 s)).

Definition sha256 (msg : list Z) : chain :=
  fold_left compress (blocks (be_words (pad msg))) initial_chain.

(** [digest()]: the thirty-two bytes of the final chaining value. *)
Definition digest (h : chain) : list Z :=
  be_bytes 4 (c0 h) ++ be_bytes 4 (c1 h) ++ be_bytes 4 (c2 h) ++ be_bytes 4 (c3 h) ++
  be_bytes 4 (c4 h) ++ be_bytes 4 (c5 h) ++ be_bytes 4 (c6 h) ++ be_bytes 4 (c7 h).

(** [hexdigest()]: two lowercase hexadecimal digits per byte. *)
Definition hex_digit (d : Z) : ascii :=
  nth (Z.to_nat (d mod 16)) (list_ascii_of_string "0123456789abcdef") "0"%char.

Fixpoint hex_of_bytes (bs : list Z) : string :=
  match bs with
  | [] => EmptyString
  | b :: rest => String (hex_digit (b / 16)) (String (hex_digit b) (hex_of_bytes rest))
  end.

Definition hexdigest (h : chain) : string := hex_of_bytes (digest h).

End Sha256.

(** The bytes of an encoded string. *)
Definition encode_utf8 (s : string) : list Z :=
  map (fun c => Z.of_N (N_of_ascii c)) (list_ascii_of_string s).

(** [hash_password], main.py lines 20-21, on a password that is already
    encoded ([Py.hash_password] encodes first, and may raise). *)
Definition hash_password (password : string) : string :=
  Sha256.hexdigest (Sha256.sha256 (encode_utf8 password)).

(** ** Request models (pydantic), main.py lines 24-31 *)

Module UserCreate.
Record t : Type := Make { username : string; email : string; password : string }.
End UserCreate.

Module UserLogin.
Record t : Type := Make { username : string; password : string }.
End UserLogin.

(** ** The [users] table, main.py lines 38-44

    One record per row, columns as declared by CREATE TABLE.  The rows are
    kept in rowid order, the order in which a scan of the table returns
    them.  [seq] is the AUTOINCREMENT counter of the table (its row of
    sqlite_sequence): the largest id ever given out. *)

Module users.
Record row : Type := Row {
  id : Z;
  username : string;
  email : string;
  password : string;
  created_at : string
}.
End users.

Record table : Type := Table { rows : list users.row; seq : Z }.

Definition empty_table : table := Table [] 0.

(** A connection sees the committed contents of the file and its own
    uncommitted changes; [close] without [commit] drops the latter. *)
Record connection : Type := Conn { committed : table; pending : table }.

Definition get_db (file : table) : connection := Conn file file.

Definition commit (conn : connection) : connection :=
  Conn (pending conn) (pending conn).

Definition close (conn : connection) : table := committed conn.

(** [init_db]: CREATE TABLE IF NOT EXISTS.  [None] is a database file
    without the table. *)
Definition init_db (file : option table) : table :=
  match file with
  | None => close (commit (Conn empty_table empty_table))
  | Some t => close (commit (get_db t))
  end.

(** *** The statements the handlers execute *)

Inductive sqlite3_error : Type :=
| IntegrityError        (* UNIQUE constraint failed: users.username *)
| OverflowError         (* Python int too large to convert to SQLite INTEGER *)
| UnicodeEncodeError    (* 'utf-8' codec can't encode: surrogates not allowed *)
| OperationalError.     (* database or disk is full *)

Definition int64_min : Z := -9223372036854775808.
Definition int64_max : Z := 9223372036854775807.

(** Binding a Python int to a [?]: SQLite integers have 64 bits, and
    sqlite3 raises OverflowError for an int that does not fit. *)
Definition bind_int (n : Z) : sqlite3_error + Z :=
  if ((int64_min <=? n) && (n <=? int64_max))%Z then inr n else inl OverflowError.

Definition max_rowid (rs : list users.row) : Z :=
  fold_left (fun m r => Z.max m (users.id r)) rs 0.

(** INSERT INTO users (username, email, password, created_at) VALUES
    (?, ?, ?, ?).  The UNIQUE constraint on [username] rejects the row
    when the name is taken; otherwise AUTOINCREMENT gives it an id one
    above every id the table has ever held.  (The end of the 64-bit id
    range, which takes 2^63 - 1 rows to reach, is in [Py.insert_user].) *)
Definition insert_user (conn : connection)
    (username email password created_at : string) : sqlite3_error + connection :=
  let t := pending conn in
  if existsb (fun r => String.eqb (users.username r) username) (rows t)
  then inl IntegrityError
  else
    let new_id := Z.max (seq t) (max_rowid (rows t)) + 1 in
    inr (Conn (committed conn)
              (Table (rows t ++ [users.Row new_id username email password created_at])
                     new_id)).

(** SELECT id, username, email, created_at FROM users *)
Definition select_users (conn : connection) : list (Z * string * string * string) :=
  map (fun r => (users.id r, users.username r, users.email r, users.created_at r))
      (rows (pending conn)).

(** SELECT id, username, email, created_at FROM users WHERE id = ?,
    then [fetchone]. *)
Definition select_user_by_id (conn : connection) (user_id : Z)
  : sqlite3_error + option (Z * string * string * string) :=
  match bind_int user_id with
  | inl e => inl e
  | inr n =>
      inr (option_map
             (fun r => (users.id r, users.username r, users.email r, users.created_at r))
             (find (fun r => (users.id r =? n)%Z) (rows (pending conn))))
  end.

(** SELECT password FROM users WHERE username = ?, then [fetchone]. *)
Definition select_password (conn : connection) (username : string) : option string :=
  option_map users.password
    (find (fun r => String.eqb (users.username r) username) (rows (pending conn))).

(** ** What a handler produces *)

Inductive json : Type :=
| JInt (n : Z)
| JStr (s : string)
| JArr (items : list json)
| JObj (fields : list (string * json)).

Inductive outcome : Type :=
| Return (value : json)                              (* the handler returned *)
| HTTPException (status_code : Z) (detail : string)  (* raise HTTPException(...) *)
| Uncaught (e : sqlite3_error).                      (* an exception no handler catches *)

Record response : Type := Response { status : Z; body : json }.

(** FastAPI: a returned value is a 200, an HTTPException carries its own
    status and a [detail] body, anything else is a 500. *)
Definition respond (o : outcome) : response :=
  match o with
  | Return v => Response 200 v
  | HTTPException code detail => Response code (JObj [("detail", JStr detail)])
  | Uncaught _ => Response 500 (JStr "Internal Server Error")
  end.

Definition user_object (r : Z * string * string * string) : json :=
  let '(r0, r1, r2, r3) := r in
  JObj [("id", JInt r0); ("username", JStr r1); ("email", JStr r2); ("created_at", JStr r3)].

(** ** The handlers *)

(** GET /users, main.py lines 58-68. *)
Definition get_users (file : table) : table * outcome :=
  let conn := get_db file in
  let rows := select_users conn in
  let file := close conn in
  (file, Return (JArr (map user_object rows))).

(** GET /users/{user_id}, main.py lines 71-83. *)
Definition get_user (user_id : Z) (file : table) : table * outcome :=
  let conn := get_db file in
  match select_user_by_id conn user_id with
  | inl e => (close conn, Uncaught e)
  | inr row =>
      let file := close conn in
      match row with
      | None => (file, HTTPException 404 "User not found")
      | Some r => (file, Return (user_object r))
      end
  end.

(** POST /users, main.py lines 86-101, on strings already encoded.
    [utcnow] is the text of [datetime.utcnow().isoformat()] at the time
    of the call. *)
Definition create_user (user : UserCreate.t) (utcnow : string) (file : table)
  : table * outcome :=
  let conn := get_db file in
  let hashed_pw := hash_password (UserCreate.password user) in
  match insert_user conn (UserCreate.username user) (UserCreate.email user)
                    hashed_pw utcnow with
  | inl IntegrityError =>
      (close conn, HTTPException 400 "이미 존재하는 유저입니다.")
  | inl e => (committed conn, Uncaught e)   (* not caught: nothing was committed *)
  | inr conn =>
      let conn := commit conn in
      (close conn, Return (JObj [("message", JStr "회원가입 성공!")]))
  end.

(** POST /login, main.py lines 104-121, on strings already encoded. *)
Definition login (user : UserLogin.t) (file : table) : table * outcome :=
  let conn := get_db file in
  let row := select_password conn (UserLogin.username user) in
  let file := close conn in
  match row with
  | None => (file, HTTPException 404 "아이디 또는 비밀번호가 다릅니다.")
  | Some row0 =>
      let hashed_input := hash_password (UserLogin.password user) in
      if negb (String.eqb hashed_input row0)
      then (file, HTTPException 400 "비밀번호가 다릅니다.")
      else (file, Return (JObj [("message",
                                 JStr (UserLogin.username user ++ "님 환영합니다."))]))
  end.

(** ** The service: requests handled one after the other *)

Inductive request : Type :=
| GET_users
| GET_user (user_id : Z)
| POST_users (user : UserCreate.t) (utcnow : string)
| POST_login (user : UserLogin.t).

Definition handle (req : request) (file : table) : table * outcome :=
  match req with
  | GET_users => get_users file
  | GET_user user_id => get_user user_id file
  | POST_users user utcnow => create_user user utcnow file
  | POST_login user => login user file
  end.

Fixpoint serve (reqs : list request) (file : table) : table * list response :=
  match reqs with
  | [] => (file, [])
  | req :: rest =>
      let '(file1, o) := handle req file in
      let '(file2, rs) := serve rest file1 in
      (file2, respond o :: rs)
  end.

(** The registrations among [reqs] that succeeded, oldest first. *)
Fixpoint registered (reqs : list request) (file : table)
  : list (UserCreate.t * string) :=
  match reqs with
  | [] => []
  | req :: rest =>
      let '(file1, o) := handle req file in
      match req, o with
      | POST_users user utcnow, Return _ => (user, utcnow) :: registered rest file1
      | _, _ => registered rest file1
      end
  end.

(** ** The handlers as Python runs them *)

Module Py.

(** A Python [str]: its code points, each from 0 to 0x10FFFF. *)
Definition str : Type := list Z.

(** The UTF-8 bytes of one code point.  The surrogates U+D800 to U+DFFF
    have none: [encode] raises UnicodeEncodeError. *)
Definition utf8 (c : Z) : sqlite3_error + list Z :=
  if (c <? 128)%Z then inr [c]
  else if (c <? 2048)%Z then inr [192 + c / 64; 128 + c mod 64]%Z
  else if ((55296 <=? c) && (c <=? 57343))%Z then inl UnicodeEncodeError
  else if (c <? 65536)%Z
       then inr [224 + c / 4096; 128 + (c / 64) mod 64; 128 + c mod 64]%Z
       else inr [240 + c / 262144; 128 + (c / 4096) mod 64;
                 128 + (c / 64) mod 64; 128 + c mod 64]%Z.

Fixpoint encode_bytes (s : str) : sqlite3_error + list Z :=
  match s with
  | [] => inr []
  | c :: rest =>
      match utf8 c with
      | inl e => inl e
      | inr bytes =>
          match encode_bytes rest with
          | inl e => inl e
          | inr more => inr (bytes ++ more)
          end
      end
  end.

(** [s.encode("utf-8")], which is also what sqlite3 does to bind a [str]
    to a [?]. *)
Definition encode (s : str) : sqlite3_error + string :=
  match encode_bytes s with
  | inl e => inl e
  | inr bytes => inr (string_of_list_ascii (map (fun b => ascii_of_N (Z.to_N b)) bytes))
  end.

(** The [str] whose code points are the bytes of [s]; for an ASCII
    literal, the text of the literal. *)
Definition latin1 (s : string) : str :=
  map (fun c => Z.of_N (N_of_ascii c)) (list_ascii_of_string s).

(** [hash_password], main.py lines 20-21: encode, then SHA-256 in hex
    (the [hash_password] of the first layer). *)
Definition hash_password (password : str) : sqlite3_error + string :=
  match encode password with
  | inl e => inl e
  | inr data => inr (hash_password data)
  end.

(** The request models, main.py lines 24-31. *)
Module UserCreate.
Record t : Type := Make { username : str; email : str; password : str }.
End UserCreate.

Module UserLogin.
Record t : Type := Make { username : str; password : str }.
End UserLogin.

(** [cur.execute("INSERT ...", (username, email, hashed_pw, created_at))]:
    the parameters are bound first, which encodes them; then the
    statement runs.  AUTOINCREMENT gives up with SQLITE_FULL when the
    largest id ever used is the largest 64-bit integer, before the UNIQUE
    constraint is looked at; otherwise the statement is [insert_user] of
    the first layer. *)
Definition insert_user (conn : connection) (username email : str)
    (password created_at : string) : sqlite3_error + connection :=
  match encode username with
  | inl e => inl e
  | inr username =>
      match encode email with
      | inl e => inl e
      | inr email =>
          let t := pending conn in
          if (int64_max <=? Z.max (seq t) (max_rowid (rows t)))%Z
          then inl OperationalError
          else insert_user conn username email password created_at
      end
  end.

(** POST /users, main.py lines 86-101.  [hash_password] is called inside
    the [try], whose only handler is for IntegrityError: every other
    exception leaves the handler, and nothing was committed. *)
Definition create_user (user : UserCreate.t) (utcnow : string) (file : table)
  : table * outcome :=
  let conn := get_db file in
  match hash_password (UserCreate.password user) with
  | inl e => (committed conn, Uncaught e)
  | inr hashed_pw =>
      match insert_user conn (UserCreate.username user) (UserCreate.email user)
                        hashed_pw utcnow with
      | inl IntegrityError =>
          (close conn, HTTPException 400 "이미 존재하는 유저입니다.")
      | inl e => (committed conn, Uncaught e)
      | inr conn =>
          let conn := commit conn in
          (close conn, Return (JObj [("message", JStr "회원가입 성공!")]))
      end
  end.

(** POST /login, main.py lines 104-121.  Binding the username encodes
    it; the password is hashed only once a row was found. *)
Definition login (user : UserLogin.t) (file : table) : table * outcome :=
  let conn := get_db file in
  match encode (UserLogin.username user) with
  | inl e => (committed conn, Uncaught e)
  | inr username =>
      let row := select_password conn username in
      let file := close conn in
      match row with
      | None => (file, HTTPException 404 "아이디 또는 비밀번호가 다릅니다.")
      | Some row0 =>
          match hash_password (UserLogin.password user) with
          | inl e => (file, Uncaught e)
          | inr hashed_input =>
              if negb (String.eqb hashed_input row0)
              then (file, HTTPException 400 "비밀번호가 다릅니다.")
              else (file, Return (JObj [("message",
                                         JStr (username ++ "님 환영합니다."))]))
          end
      end
  end.

Inductive request : Type :=
| GET_users
| GET_user (user_id : Z)
| POST_users (user : UserCreate.t) (utcnow : string)
| POST_login (user : UserLogin.t).

Definition handle (req : request) (file : table) : table * outcome :=
  match req with
  | GET_users => get_users file
  | GET_user user_id => get_user user_id file
  | POST_users user utcnow => create_user user utcnow file
  | POST_login user => login user file
  end.

Fixpoint serve (reqs : list request) (file : table) : table * list response :=
  match reqs with
  | [] => (file, [])
  | req :: rest =>
      let '(file1, o) := handle req file in
      let '(file2, rs) := serve rest file1 in
      (file2, respond o :: rs)
  end.

End Py.

(** The three strings of a registration, encoded, when all three encode. *)
Definition encode_user (user : Py.UserCreate.t) : option UserCreate.t :=
  match Py.encode (Py.UserCreate.username user),
        Py.encode (Py.UserCreate.email user),
        Py.encode (Py.UserCreate.password user) with
  | inr username, inr email, inr password => Some (UserCreate.Make username email password)
  | _, _, _ => None
  end.

(** The accounts GET /users is expected to list after [reqs], told from
    the requests alone: the registrations whose strings all encode and
    whose username is not among those [taken] before, in the order they
    were made. *)
Fixpoint expected_accounts (reqs : list Py.request) (taken : list string)
  : list (UserCreate.t * string) :=
  match reqs with
  | [] => []
  | Py.POST_users user utcnow :: rest =>
      match encode_user user with
      | Some u =>
          if existsb (fun name => String.eqb name (UserCreate.username u)) taken
          then expected_accounts rest taken
          else (u, utcnow) :: expected_accounts rest (taken ++ [UserCreate.username u])
      | None => expected_accounts rest taken
      end
  | _ :: rest => expected_accounts rest taken
  end.

(** A table is full when the largest id ever used is the largest 64-bit
    integer. *)
Definition full (t : table) : Prop :=
  (int64_max <= Z.max (seq t) (max_rowid (rows t)))%Z.

(** ** What the schema guarantees, and the states the service reaches *)

(** PRIMARY KEY and rowid order, AUTOINCREMENT, UNIQUE. *)
Record table_ok (t : table) : Prop := TableOk {
  ids_increasing : StronglySorted Z.lt (map users.id (rows t));
  ids_below_seq : Forall (fun r => users.id r <= seq t)%Z (rows t);
  usernames_unique : NoDup (map users.username (rows t))
}.

(** The lifespan hook runs [init_db] on start; a state is reachable when
    some sequence of requests leads to it from a file without the table. *)
Definition reachable (t : table) : Prop :=
  exists reqs, t = fst (serve reqs (init_db None)).

(** How a registration is stored. *)
Definition stored_as (r : users.row) (reg : UserCreate.t * string) : Prop :=
  users.username r = UserCreate.username (fst reg) /\
  users.email r = UserCreate.email (fst reg) /\
  users.password r = hash_password (UserCreate.password (fst reg)) /\
  users.created_at r = snd reg.

Definition name_is (username : string) (r : users.row) : bool :=
  String.eqb (users.username r) username.

(** The keys of a JSON object, in order. *)
Definition keys (v : json) : list string :=
  match v with
  | JObj fields => map fst fields
  | _ => []
  end.

Definition is_lower_hex (c : ascii) : bool :=
  existsb (Ascii.eqb c) (list_ascii_of_string "0123456789abcdef").

(** The table with every password column overwritten. *)
Definition with_passwords (f : users.row -> string) (t : table) : table :=
  Table (map (fun r => users.Row (users.id r) (users.username r) (users.email r)
                                 (f r) (users.created_at r)) (rows t))
        (seq t).

(** How many rows carry a username. *)
Definition count_username (username : string) (t : table) : nat :=
  List.length (filter (name_is username) (rows t)).

(** The columns GET /users and GET /users/{id} select. *)
Definition selected (r : users.row) : Z * string * string * string :=
  (users.id r, users.username r, users.email r, users.created_at r).

(** The object a registration appears as once it has the id [n]. *)
Definition listed_as (entry : nat * (UserCreate.t * string)) : json :=
  let '(n, (user, utcnow)) := entry in
  JObj [("id", JInt (Z.of_nat n)); ("username", JStr (UserCreate.username user));
        ("email", JStr (UserCreate.email user)); ("created_at", JStr utcnow)].

(** A table that started empty: its ids count its rows, 1, 2, 3, ... *)
Definition counted (t : table) : Prop :=
  map users.id (rows t) = map Z.of_nat (List.seq 1 (List.length (rows t))) /\
  seq t = Z.of_nat (List.length (rows t)).

(** The eight words of a chaining value, and what it is to be a 32-bit
    word. *)
Definition chain_words (h : Sha256.chain) : list Z :=
  [Sha256.c0 h; Sha256.c1 h; Sha256.c2 h; Sha256.c3 h;
   Sha256.c4 h; Sha256.c5 h; Sha256.c6 h; Sha256.c7 h].

Definition is_word32 (x : Z) : Prop := (0 <= x < 4294967296)%Z.

(** *** Sample requests *)

Definition alice : UserCreate.t := UserCreate.Make "alice" "a@x.com" "secret".
Definition bob : UserCreate.t := UserCreate.Make "bob" "b@x.com" "hunter2".
Definition carol : UserCreate.t := UserCreate.Make "carol" "c@x.com" "회원가입".
Definition alice_again : UserCreate.t := UserCreate.Make "alice" "other@x.com" "other".

Definition t1 : string := "2024-05-01T09:00:00.000001".
Definition t2 : string := "2024-05-01T09:00:07.120000".
Definition t3 : string := "2024-05-02T18:30:00".

Definition fresh : table := init_db None.

(** The file once alice has registered, and once bob has too. *)
Definition with_alice : table := fst (create_user alice t1 fresh).
Definition with_alice_bob : table := fst (create_user bob t2 with_alice).

(** The same requests as Python values; ['\ud800'], a lone surrogate;
    a table whose one row has the largest id. *)
Definition py_alice : Py.UserCreate.t :=
  Py.UserCreate.Make (Py.latin1 "alice") (Py.latin1 "a@x.com") (Py.latin1 "secret").
Definition py_bob : Py.UserCreate.t :=
  Py.UserCreate.Make (Py.latin1 "bob") (Py.latin1 "b@x.com") (Py.latin1 "hunter2").
Definition py_carol : Py.UserCreate.t :=
  Py.UserCreate.Make (Py.latin1 "carol") (Py.latin1 "c@x.com")
                     [54924; 50896; 44032; 51077]%Z.
Definition py_alice_again : Py.UserCreate.t :=
  Py.UserCreate.Make (Py.latin1 "alice") (Py.latin1 "other@x.com") (Py.latin1 "other").

Definition lone_surrogate : Py.str := [55296]%Z.

Definition py_dave : Py.UserCreate.t :=
  Py.UserCreate.Make (Py.latin1 "dave") (Py.latin1 "d@x.com") lone_surrogate.
Definition py_alice_unencodable : Py.UserCreate.t :=
  Py.UserCreate.Make (Py.latin1 "alice") (Py.latin1 "a@x.com") lone_surrogate.

Definition last_id_taken : table :=
  Table [users.Row int64_max "alice" "a@x.com" (hash_password "secret") t1] int64_max.

Example hash_password_empty :
  hash_password "" = "e3b0c44298fc1c149afbf4c8996fb92427ae41e4649b934ca495991b7852b855".
Proof. vm_compute. reflexivity. Qed.

Example hash_password_abc :
  hash_password "abc" = "ba7816bf8f01cfea414140de5dae2223b00361a396177a9cb410ff61f20015ad".
Proof. vm_compute. reflexivity. Qed.

Example hash_password_secret :
  hash_password "secret" = "2bb80d537b1da3e38bd30361aa855686bde0eacd7162fef6a25fe97bf527a25b".
Proof. vm_compute. reflexivity. Qed.

Example hash_password_two_blocks :
  hash_password "aaaaaaaaaaaaaaaaaaaaaaaaaaaaaaaaaaaaaaaaaaaaaaaaaaaaaaaa"
  = "b35439a4ac6f0948b6d6f9e3c6af0f5f590ce20f1bde7090ef7970686ec6738a".
Proof. vm_compute. reflexivity. Qed.

Example hash_password_hangul :
  hash_password "회원" = "e335b89934ea6dc403717c96d6c727ad19ed46c5ac726a5fe69a5718a5e8a8fa".
Proof. vm_compute. reflexivity. Qed.

(** ** Lists: first match, existence, appending *)

Section ListFacts.
Context {A : Type}.

Lemma find_app (f : A -> bool) (l1 l2 : list A) :
  find f (l1 ++ l2) = match find f l1 with Some x => Some x | None => find f l2 end.
Proof.
  induction l1 as [|a l1 IH]; simpl; [reflexivity|].
  destruct (f a); [reflexivity | exact IH].
Qed.


Lemma existsb_true_find (f : A -> bool) (l : list A) :
  existsb f l = true -> exists x, find f l = Some x /\ In x l /\ f x = true.
Proof.
  induction l as [|a l IH]; simpl; [discriminate|].
  destruct (f a) eqn:Fa; simpl.
  - intros _. exists a. auto.
  - intros H. destruct (IH H) as (x & Hx & Hin & Hf). exists x. auto.
Qed.

Lemma find_none_forall (f : A -> bool) (l : list A) :
  (forall x, In x l -> f x = false) -> find f l = None.
Proof.
  induction l as [|a l IH]; simpl; intros H; [reflexivity|].
  rewrite (H a (or_introl eq_refl)). apply IH. intros x Hx. apply H. now right.
Qed.

(** With a key that no two elements share, the first match is the match. *)
Lemma find_unique {K : Type} (key : A -> K) (f : A -> bool) (l : list A) (x : A) :
  NoDup (map key l) ->
  (forall y, In y l -> f y = true -> key y = key x) ->
  In x l -> f x = true -> find f l = Some x.
Proof.
  induction l as [|a l IH]; simpl; intros Hnd Hkey Hin Hfx; [contradiction|].
  inversion Hnd as [|k ks Hnotin Hnd' E]; subst.
  destruct (f a) eqn:Fa.
  - destruct Hin as [->|Hin]; [reflexivity|].
    exfalso. apply Hnotin.
    rewrite (Hkey a (or_introl eq_refl) Fa). now apply in_map.
  - destruct Hin as [->|Hin]; [congruence|].
    apply IH; auto.
Qed.

Lemma sorted_snoc (R : A -> A -> Prop) (l : list A) (x : A) :
  StronglySorted R l -> Forall (fun y => R y x) l -> StronglySorted R (l ++ [x]).
Proof.
  induction 1 as [|a l Hs IH Hall]; simpl; intros Hx.
  - repeat constructor.
  - inversion Hx; subst. constructor; [now apply IH|].
    apply Forall_app. split; [assumption | now constructor].
Qed.

End ListFacts.

Lemma sorted_lt_nodup (l : list Z) : StronglySorted Z.lt l -> NoDup l.
Proof.
  induction 1 as [|a l Hs IH Hall]; constructor; [|assumption].
  intros Hin. rewrite Forall_forall in Hall. specialize (Hall a Hin). lia.
Qed.

(** ** The statements *)

Lemma max_rowid_from (rs : list users.row) (m : Z) :
  (m <= fold_left (fun m r => Z.max m (users.id r)) rs m)%Z /\
  Forall (fun r => users.id r <= fold_left (fun m r => Z.max m (users.id r)) rs m)%Z rs.
Proof.
  revert m. induction rs as [|r rs IH]; simpl; intros m.
  - split; [lia | constructor].
  - destruct (IH (Z.max m (users.id r))) as [Hm Hall]. split; [lia|].
    constructor; [lia | assumption].
Qed.

Lemma max_rowid_bound (rs : list users.row) :
  Forall (fun r => users.id r <= max_rowid rs)%Z rs.
Proof. apply (max_rowid_from rs 0). Qed.

Lemma insert_user_taken conn username email password created_at :
  existsb (name_is username) (rows (pending conn)) = true ->
  insert_user conn username email password created_at = inl IntegrityError.
Proof. unfold insert_user, name_is. intros ->. reflexivity. Qed.

Lemma insert_user_fresh conn username email password created_at :
  existsb (name_is username) (rows (pending conn)) = false ->
  insert_user conn username email password created_at =
  inr (Conn (committed conn)
         (Table (rows (pending conn) ++
                 [users.Row (Z.max (seq (pending conn)) (max_rowid (rows (pending conn))) + 1)
                            username email password created_at])
                (Z.max (seq (pending conn)) (max_rowid (rows (pending conn))) + 1))).
Proof. unfold insert_user, name_is. intros ->. reflexivity. Qed.

(** ** The handlers, case by case *)

Lemma create_user_taken user utcnow file :
  existsb (name_is (UserCreate.username user)) (rows file) = true ->
  create_user user utcnow file = (file, HTTPException 400 "이미 존재하는 유저입니다.").
Proof.
  intros H. unfold create_user. rewrite insert_user_taken by exact H. reflexivity.
Qed.

Lemma create_user_fresh user utcnow file :
  existsb (name_is (UserCreate.username user)) (rows file) = false ->
  create_user user utcnow file =
  (Table (rows file ++
          [users.Row (Z.max (seq file) (max_rowid (rows file)) + 1)
                     (UserCreate.username user) (UserCreate.email user)
                     (hash_password (UserCreate.password user)) utcnow])
         (Z.max (seq file) (max_rowid (rows file)) + 1),
   Return (JObj [("message", JStr "회원가입 성공!")])).
Proof.
  intros H. unfold create_user. rewrite insert_user_fresh by exact H. reflexivity.
Qed.

Lemma get_users_file file : fst (get_users file) = file.
Proof. reflexivity. Qed.

Lemma get_user_file user_id file : fst (get_user user_id file) = file.
Proof.
  unfold get_user. destruct (select_user_by_id (get_db file) user_id) as [e|[r|]];
    reflexivity.
Qed.

Lemma login_file user file : fst (login user file) = file.
Proof.
  unfold login. destruct (select_password (get_db file) (UserLogin.username user));
    [|reflexivity].
  destruct (negb _); reflexivity.
Qed.

Lemma existsb_name_false username rs :
  existsb (name_is username) rs = false -> ~ In username (map users.username rs).
Proof.
  intros H Hin. apply in_map_iff in Hin. destruct Hin as (r & Hr & Hin).
  assert (existsb (name_is username) rs = true) as E; [|congruence].
  apply existsb_exists. exists r. split; [assumption|].
  unfold name_is. rewrite Hr. apply String.eqb_refl.
Qed.

Lemma existsb_name_true username rs :
  existsb (name_is username) rs = true -> In username (map users.username rs).
Proof.
  intros H. apply existsb_exists in H. destruct H as (r & Hin & Hr).
  unfold name_is in Hr. apply String.eqb_eq in Hr. subst username. now apply in_map.
Qed.

(** Every request leaves the file as it was, except a registration under
    a fresh name, which appends one row. *)
Lemma handle_cases req file :
  (fst (handle req file) = file /\
   forall user utcnow value, req = POST_users user utcnow ->
                             snd (handle req file) <> Return value) \/
  (exists user utcnow,
     req = POST_users user utcnow /\
     existsb (name_is (UserCreate.username user)) (rows file) = false /\
     handle req file =
     (Table (rows file ++
             [users.Row (Z.max (seq file) (max_rowid (rows file)) + 1)
                        (UserCreate.username user) (UserCreate.email user)
                        (hash_password (UserCreate.password user)) utcnow])
            (Z.max (seq file) (max_rowid (rows file)) + 1),
      Return (JObj [("message", JStr "회원가입 성공!")]))).
Proof.
  destruct req as [|user_id|user utcnow|user]; simpl.
  - left. split; [reflexivity | discriminate].
  - left. split; [apply get_user_file | discriminate].
  - destruct (existsb (name_is (UserCreate.username user)) (rows file)) eqn:E.
    + left. rewrite create_user_taken by exact E. split; [reflexivity|].
      intros; discriminate.
    + right. exists user, utcnow. rewrite create_user_fresh by exact E. auto.
  - left. split; [apply login_file | discriminate].
Qed.

Lemma serve_cons_fst req rest file :
  fst (serve (req :: rest) file) = fst (serve rest (fst (handle req file))).
Proof.
  simpl. destruct (handle req file) as [file1 o]. simpl.
  destruct (serve rest file1) as [file2 rs]. reflexivity.
Qed.

Lemma serve_app_fst reqs1 reqs2 file :
  fst (serve (reqs1 ++ reqs2) file) = fst (serve reqs2 (fst (serve reqs1 file))).
Proof.
  revert file. induction reqs1 as [|req reqs1 IH]; intros file; [reflexivity|].
  rewrite <- app_comm_cons, !serve_cons_fst. apply IH.
Qed.

(** *** The schema's guarantees hold in every state *)

Lemma empty_table_ok : table_ok empty_table.
Proof. split; simpl; constructor. Qed.

Lemma handle_ok req file : table_ok file -> table_ok (fst (handle req file)).
Proof.
  intros [Hids Hseq Hnames].
  destruct (handle_cases req file) as [[-> _]|(user & utcnow & _ & Hfresh & ->)];
    [now split|].
  pose proof (max_rowid_bound (rows file)) as Hmax.
  split; simpl.
  - rewrite map_app. simpl. apply sorted_snoc; [assumption|].
    rewrite Forall_map. eapply Forall_impl; [|exact Hmax]. simpl. intros r Hr. lia.
  - apply Forall_app. split.
    + eapply Forall_impl; [|exact Hmax]. simpl. intros r Hr. lia.
    + constructor; [simpl; lia | constructor].
  - rewrite map_app. simpl. apply NoDup_app; [assumption | repeat constructor; auto |].
    + intros x Hx [<-|[]]. revert Hx. now apply existsb_name_false.
Qed.

Lemma serve_ok reqs file : table_ok file -> table_ok (fst (serve reqs file)).
Proof.
  revert file. induction reqs as [|req rest IH]; intros file Hok; [exact Hok|].
  rewrite serve_cons_fst. apply IH. now apply handle_ok.
Qed.

Lemma reachable_ok file : reachable file -> table_ok file.
Proof. intros [reqs ->]. apply serve_ok. exact empty_table_ok. Qed.

(** [init_db] creates the table once and leaves an existing one alone. *)
Lemma init_db_idempotent file : init_db (Some (init_db file)) = init_db file.
Proof. destruct file; reflexivity. Qed.

Lemma init_db_keeps t : init_db (Some t) = t.
Proof. destruct t; reflexivity. Qed.

(** *** Rows are only ever appended, one per successful registration *)

Lemma serve_rows reqs file :
  exists new,
    rows (fst (serve reqs file)) = rows file ++ new /\
    Forall2 stored_as new (registered reqs file).
Proof.
  revert file. induction reqs as [|req rest IH]; intros file.
  - exists []. simpl. rewrite app_nil_r. split; [reflexivity | constructor].
  - rewrite serve_cons_fst. simpl registered.
    destruct (handle_cases req file) as [[Hfile Hnot]|(user & utcnow & -> & _ & Hh)].
    + destruct (handle req file) as [file1 o] eqn:Hh. simpl in Hfile, Hnot. subst file1.
      destruct (IH file) as (new & Hrows & Hall). exists new. simpl. split; [exact Hrows|].
      destruct req; try exact Hall.
      destruct o; try exact Hall. exfalso. eapply Hnot; reflexivity.
    + rewrite Hh. simpl fst.
      match goal with |- context [Table (rows file ++ [?r]) ?s] =>
        destruct (IH (Table (rows file ++ [r]) s)) as (new & Hrows & Hall);
        exists (r :: new) end.
      split.
      * rewrite Hrows. simpl. rewrite <- app_assoc. reflexivity.
      * constructor; [|exact Hall]. repeat split.
Qed.

(** ** hash_password *)

Lemma hex_digit_lower (d : Z) : is_lower_hex (Sha256.hex_digit d) = true.
Proof.
  unfold Sha256.hex_digit.
  assert (Z.to_nat (d mod 16) < 16)%nat as Hlt
    by (pose proof (Z.mod_pos_bound d 16 ltac:(lia)); lia).
  revert Hlt. generalize (Z.to_nat (d mod 16)). intros n Hlt.
  do 16 (destruct n as [|n]; [reflexivity|]). lia.
Qed.

Lemma hex_of_bytes_lower (bs : list Z) :
  Forall (fun c => is_lower_hex c = true) (list_ascii_of_string (Sha256.hex_of_bytes bs)).
Proof.
  induction bs as [|b bs IH]; simpl; [constructor|].
  constructor; [apply hex_digit_lower|].
  constructor; [apply hex_digit_lower | exact IH].
Qed.

Lemma hexdigest_length (h : Sha256.chain) : String.length (Sha256.hexdigest h) = 64%nat.
Proof. reflexivity. Qed.

(** ** Registration, then login *)

Lemma create_user_return user utcnow file file1 value :
  create_user user utcnow file = (file1, Return value) ->
  existsb (name_is (UserCreate.username user)) (rows file) = false /\
  file1 = Table (rows file ++
                 [users.Row (Z.max (seq file) (max_rowid (rows file)) + 1)
                            (UserCreate.username user) (UserCreate.email user)
                            (hash_password (UserCreate.password user)) utcnow])
                (Z.max (seq file) (max_rowid (rows file)) + 1) /\
  value = JObj [("message", JStr "회원가입 성공!")].
Proof.
  destruct (existsb (name_is (UserCreate.username user)) (rows file)) eqn:E.
  - rewrite create_user_taken by exact E. discriminate.
  - rewrite create_user_fresh by exact E. intros H. injection H as <- <-. auto.
Qed.




(** ** Registering a name twice *)

Lemma existsb_false_filter {A : Type} (f : A -> bool) (l : list A) :
  existsb f l = false -> filter f l = [].
Proof.
  induction l as [|a l IH]; simpl; [reflexivity|].
  destruct (f a); simpl; [discriminate | exact IH].
Qed.

Lemma in_names_existsb username rs :
  In username (map users.username rs) -> existsb (name_is username) rs = true.
Proof.
  intros H. destruct (existsb (name_is username) rs) eqn:E; [reflexivity|].
  exfalso. revert H. now apply existsb_name_false.
Qed.

(** ** POST /login: the three answers *)

Lemma select_password_none username file :
  (forall r, In r (rows file) -> users.username r <> username) ->
  select_password (get_db file) username = None.
Proof.
  intros H. unfold select_password. simpl.
  rewrite find_none_forall; [reflexivity|].
  intros r Hin. apply String.eqb_neq. now apply H.
Qed.

Lemma select_password_some username file r :
  table_ok file -> In r (rows file) -> users.username r = username ->
  select_password (get_db file) username = Some (users.password r).
Proof.
  intros Hok Hin Hname. unfold select_password. simpl.
  rewrite (find_unique users.username _ (rows file) r);
    [reflexivity | apply (usernames_unique _ Hok) | | exact Hin |].
  - intros y _ Hy. apply String.eqb_eq in Hy. congruence.
  - apply String.eqb_eq. exact Hname.
Qed.

(** ** POST /users: the answer to a successful registration *)

Lemma create_user_status user utcnow file :
  status (respond (snd (create_user user utcnow file))) = 200 ->
  snd (create_user user utcnow file) = Return (JObj [("message", JStr "회원가입 성공!")]).
Proof.
  destruct (existsb (name_is (UserCreate.username user)) (rows file)) eqn:E.
  - rewrite create_user_taken by exact E. simpl. discriminate.
  - rewrite create_user_fresh by exact E. reflexivity.
Qed.

(** C10. Every successful registration is answered with the same body,
    the object with the one field [message] holding the fixed success
    text: it depends neither on the username, the email or the password
    submitted, nor on the table, so it does not tell the id the new row
    got, and the answers to any two successful registrations are equal. *)
Theorem registration_answer_constant
    (user1 user2 : UserCreate.t) (utcnow1 utcnow2 : string) (file1 file2 : table) :
  status (respond (snd (create_user user1 utcnow1 file1))) = 200 ->
  status (respond (snd (create_user user2 utcnow2 file2))) = 200 ->
  respond (snd (create_user user1 utcnow1 file1))
  = Response 200 (JObj [("message", JStr "회원가입 성공!")]) /\
  respond (snd (create_user user1 utcnow1 file1))
  = respond (snd (create_user user2 utcnow2 file2)).
Proof.
  intros H1 H2. apply create_user_status in H1, H2. rewrite H1, H2.
  split; reflexivity.
Qed.

Lemma registration_answer_constant_witness :
  map users.id (rows (fst (create_user alice t1 fresh))) = [1] /\
  map users.id (rows (fst (create_user bob t2 with_alice))) = [1; 2] /\
  respond (snd (create_user alice t1 fresh))
  = Response 200 (JObj [("message", JStr "회원가입 성공!")]) /\
  respond (snd (create_user alice t1 fresh))
  = respond (snd (create_user bob t2 with_alice)).
Proof.
  split; [vm_compute; reflexivity|]. split; [vm_compute; reflexivity|].
  apply (registration_answer_constant alice bob t1 t2 fresh with_alice);
    vm_compute; reflexivity.
Defined.

(** ** What is stored, and what is shown *)

Lemma stored_as_length (r : users.row) (reg : UserCreate.t * string) :
  stored_as r reg -> String.length (users.password r) = 64%nat.
Proof. intros (_ & _ & -> & _). apply hexdigest_length. Qed.

Lemma find_map_commute {A B : Type} (p : B -> bool) (h : A -> B) (l : list A) :
  find p (map h l) = option_map h (find (fun x => p (h x)) l).
Proof.
  induction l as [|a l IH]; simpl; [reflexivity|].
  destruct (p (h a)); [reflexivity | exact IH].
Qed.

Lemma keys_user_object r : keys (user_object r) = ["id"; "username"; "email"; "created_at"].
Proof. destruct r as [[[r0 r1] r2] r3]. reflexivity. Qed.

(** C5. GET /users answers with one object per row, and GET /users/{id},
    when it answers with an object, with one object; each has exactly
    the fields id, username, email and created_at, in this order, so no
    field named password.  Neither answer depends on the password
    column: with every digest of the table replaced by anything else,
    both operations answer the same, error answers included. *)
Theorem user_objects_omit_password (file : table) :
  snd (get_users file) = Return (JArr (map (fun r => user_object (selected r)) (rows file))) /\
  Forall (fun v => keys v = ["id"; "username"; "email"; "created_at"])
         (map (fun r => user_object (selected r)) (rows file)) /\
  (forall (user_id : Z) (v : json),
      snd (get_user user_id file) = Return v ->
      keys v = ["id"; "username"; "email"; "created_at"]) /\
  (forall f : users.row -> string,
      snd (get_users (with_passwords f file)) = snd (get_users file)) /\
  (forall (f : users.row -> string) (user_id : Z),
      snd (get_user user_id (with_passwords f file)) = snd (get_user user_id file)).
Proof.
  split; [|split; [|split; [|split]]].
  - unfold get_users, select_users. simpl. rewrite map_map. reflexivity.
  - rewrite Forall_map. apply Forall_forall. intros r _. apply keys_user_object.
  - intros user_id v. unfold get_user.
    destruct (select_user_by_id (get_db file) user_id) as [e|[r|]]; simpl;
      try discriminate.
    intros H. injection H as <-. apply keys_user_object.
  - intros f. unfold get_users, select_users, with_passwords. simpl.
    rewrite !map_map. reflexivity.
  - intros f user_id. unfold get_user, select_user_by_id, with_passwords. simpl.
    destruct (bind_int user_id) as [e|n]; [reflexivity|].
    rewrite find_map_commute. simpl.
    destruct (find (fun r => (users.id r =? n)%Z) (rows file)); reflexivity.
Qed.

Lemma user_objects_omit_password_witness :
  snd (get_user 2 with_alice_bob)
  = Return (JObj [("id", JInt 2); ("username", JStr "bob"); ("email", JStr "b@x.com");
                  ("created_at", JStr t2)]) /\
  keys (JObj [("id", JInt 2); ("username", JStr "bob"); ("email", JStr "b@x.com");
              ("created_at", JStr t2)])
  = ["id"; "username"; "email"; "created_at"].
Proof.
  split; [vm_compute; reflexivity|].
  apply (proj1 (proj2 (proj2 (user_objects_omit_password with_alice_bob))) 2).
  vm_compute. reflexivity.
Defined.

(** ** GET /users/{id} *)

Lemma find_id_none user_id file :
  (forall r, In r (rows file) -> users.id r <> user_id) ->
  find (fun r => (users.id r =? user_id)%Z) (rows file) = None.
Proof.
  intros H. apply find_none_forall. intros r Hin. apply Z.eqb_neq. now apply H.
Qed.

Lemma find_id_some user_id file r :
  table_ok file -> In r (rows file) -> users.id r = user_id ->
  find (fun r => (users.id r =? user_id)%Z) (rows file) = Some r.
Proof.
  intros Hok Hin Hid.
  apply (find_unique users.id); [ | | exact Hin | now apply Z.eqb_eq].
  - apply sorted_lt_nodup, (ids_increasing _ Hok).
  - intros y _ Hy. apply Z.eqb_eq in Hy. congruence.
Qed.

Lemma bind_int_in_range n :
  (int64_min <= n <= int64_max)%Z -> bind_int n = inr n.
Proof.
  intros [Hlo Hhi]. unfold bind_int.
  apply Z.leb_le in Hlo, Hhi. rewrite Hlo, Hhi. reflexivity.
Qed.

Lemma bind_int_out_of_range n :
  (n < int64_min \/ int64_max < n)%Z -> bind_int n = inl OverflowError.
Proof.
  intros H. unfold bind_int.
  destruct (Z.leb_spec int64_min n), (Z.leb_spec n int64_max); simpl;
    solve [reflexivity | lia].
Qed.

(** For an id that fits a signed 64-bit integer, GET /users/{id} answers
    404 with the body [{"detail": "User not found"}] when no row has the
    id, and 200 with the object of the row that has it otherwise. *)
Lemma get_user_in_range (user_id : Z) (file : table) :
  table_ok file -> (int64_min <= user_id <= int64_max)%Z ->
  ((forall r, In r (rows file) -> users.id r <> user_id) ->
   respond (snd (get_user user_id file))
   = Response 404 (JObj [("detail", JStr "User not found")])) /\
  (forall r, In r (rows file) -> users.id r = user_id ->
   respond (snd (get_user user_id file)) = Response 200 (user_object (selected r))).
Proof.
  intros Hok Hrange. unfold get_user, select_user_by_id.
  rewrite (bind_int_in_range _ Hrange). simpl pending. split.
  - intros Hnone. rewrite (find_id_none _ _ Hnone). reflexivity.
  - intros r Hin Hid. rewrite (find_id_some _ _ r Hok Hin Hid). reflexivity.
Qed.

(** For any other id, binding the parameter raises OverflowError, which
    nothing catches: the answer is a 500, whatever the table holds. *)
Lemma get_user_out_of_range (user_id : Z) (file : table) :
  (user_id < int64_min \/ int64_max < user_id)%Z ->
  get_user user_id file = (file, Uncaught OverflowError).
Proof.
  intros H. unfold get_user, select_user_by_id.
  rewrite (bind_int_out_of_range _ H). reflexivity.
Qed.

(** C7, at the input where the code departs from it.  No account was ever
    given the id 9223372036854775808 (the table is empty, and the id is
    2^63, one more than SQLite's largest integer), yet GET /users/{id}
    does not answer 404: sqlite3 raises OverflowError when it binds the
    parameter, the handler does not catch it, and the answer is a 500. *)
Theorem get_user_overflow :
  rows fresh = [] /\
  get_user 9223372036854775808 fresh = (fresh, Uncaught OverflowError) /\
  respond (snd (get_user 9223372036854775808 fresh))
  = Response 500 (JStr "Internal Server Error") /\
  respond (snd (get_user 999 fresh))
  = Response 404 (JObj [("detail", JStr "User not found")]).
Proof. repeat split. Qed.

(** ** Ids and the order of GET /users *)

Lemma max_rowid_le (rs : list users.row) (m : Z) :
  (0 <= m)%Z -> Forall (fun r => users.id r <= m)%Z rs -> (max_rowid rs <= m)%Z.
Proof.
  intros Hm Hall. unfold max_rowid.
  assert (forall acc, (acc <= m)%Z ->
            (fold_left (fun a r => Z.max a (users.id r)) rs acc <= m)%Z) as Hfold;
    [|apply Hfold; exact Hm].
  induction Hall as [|r rs Hr _ IH]; simpl; intros acc Hacc; [exact Hacc|].
  apply IH. lia.
Qed.

Lemma counted_empty : counted empty_table.
Proof. split; reflexivity. Qed.

Lemma handle_counted req file :
  table_ok file -> counted file -> counted (fst (handle req file)).
Proof.
  intros Hok [Hids Hseq].
  destruct (handle_cases req file) as [[-> _]|(user & utcnow & _ & _ & ->)];
    [now split|].
  assert (max_rowid (rows file) <= seq file)%Z as Hmax
    by (apply max_rowid_le; [lia | apply (ids_below_seq _ Hok)]).
  unfold counted. simpl. rewrite length_app, map_app. simpl.
  rewrite PeanoNat.Nat.add_1_r, seq_S, map_app, <- Hids. simpl.
  split; [f_equal; f_equal|]; lia.
Qed.

Lemma serve_counted reqs file :
  table_ok file -> counted file -> counted (fst (serve reqs file)).
Proof.
  revert file. induction reqs as [|req rest IH]; intros file Hok Hc; [exact Hc|].
  rewrite serve_cons_fst. apply IH; [now apply handle_ok | now apply handle_counted].
Qed.

Lemma listed_rows (rs : list users.row) (regs : list (UserCreate.t * string)) :
  Forall2 stored_as rs regs ->
  forall k : nat,
    map users.id rs = map Z.of_nat (List.seq k (List.length rs)) ->
    map (fun r => user_object (selected r)) rs
    = map listed_as (combine (List.seq k (List.length regs)) regs).
Proof.
  induction 1 as [|r reg rs regs Hr _ IH]; intros k Hids; [reflexivity|].
  simpl in Hids. injection Hids as Hid Hrest. simpl. f_equal.
  - destruct reg as [user utcnow], r as [i u e p c].
    destruct Hr as (Hu & He & _ & Hc). simpl in *. subst. reflexivity.
  - apply IH. exact Hrest.
Qed.

(** Alice, Bob and Carol register in this order (Alice tries twice, and
    logins and reads come in between): the list shows them in this order
    with the ids 1, 2, 3. *)
Example list_after_three_registrations :
  snd (get_users (fst (serve [POST_users alice t1; POST_login (UserLogin.Make "alice" "x");
                              POST_users bob t2; POST_users alice_again t2; GET_user 7;
                              POST_users carol t3] fresh)))
  = Return (JArr [
      JObj [("id", JInt 1); ("username", JStr "alice"); ("email", JStr "a@x.com");
            ("created_at", JStr t1)];
      JObj [("id", JInt 2); ("username", JStr "bob"); ("email", JStr "b@x.com");
            ("created_at", JStr t2)];
      JObj [("id", JInt 3); ("username", JStr "carol"); ("email", JStr "c@x.com");
            ("created_at", JStr t3)]]).
Proof. vm_compute. reflexivity. Qed.

(** The end-to-end scenario of the specification. *)
Example end_to_end :
  map status
      (snd (serve [POST_users alice t1;
                   POST_login (UserLogin.Make "alice" "wrong");
                   POST_login (UserLogin.Make "alice" "secret");
                   GET_user 1; GET_user 999] fresh))
  = [200; 400; 200; 200; 404]%Z.
Proof. vm_compute. reflexivity. Qed.

(** * Further properties of the handlers and of the table *)

(** ** The schema holds throughout *)

Lemma nodup_count_le_1 username rs :
  NoDup (map users.username rs) ->
  (List.length (filter (name_is username) rs) <= 1)%nat.
Proof.
  induction rs as [|r rs IH]; simpl; intros Hnd; [lia|].
  inversion Hnd as [|x xs Hnotin Hnd']; subst.
  destruct (name_is username r) eqn:E; [|now apply IH].
  unfold name_is in E. apply String.eqb_eq in E.
  rewrite existsb_false_filter; [simpl; lia|].
  destruct (existsb (name_is username) rs) eqn:Ex; [|reflexivity].
  exfalso. apply Hnotin. rewrite E. now apply existsb_name_true.
Qed.

(** X1. The constraints CREATE TABLE declares are kept by every request:
    starting from a table that satisfies them (the empty one does), after
    any sequence of requests no two rows share a username (every username
    is carried by at most one row), no two rows share an id, the ids
    increase along the table, and the AUTOINCREMENT counter is at least
    every id. *)
Theorem schema_kept (reqs : list request) (file : table) :
  table_ok file ->
  let after := fst (serve reqs file) in
  table_ok after /\
  NoDup (map users.id (rows after)) /\
  (forall username : string, (count_username username after <= 1)%nat).
Proof.
  intros Hok after. assert (table_ok after) as Hafter by now apply serve_ok.
  split; [exact Hafter|]. split.
  - apply sorted_lt_nodup, (ids_increasing _ Hafter).
  - intros username. apply nodup_count_le_1, (usernames_unique _ Hafter).
Qed.

Lemma schema_kept_witness :
  table_ok (fst (serve [POST_users alice t1; POST_users alice_again t2; POST_users bob t3]
                       fresh)) /\
  (count_username "alice"
     (fst (serve [POST_users alice t1; POST_users alice_again t2; POST_users bob t3]
                 fresh)) <= 1)%nat.
Proof.
  destruct (schema_kept [POST_users alice t1; POST_users alice_again t2; POST_users bob t3]
              fresh empty_table_ok) as (Hok & _ & Hcount).
  split; [exact Hok | exact (Hcount "alice")].
Defined.

(** ** Rows are never changed or removed *)

(** X2. No request deletes or alters a row: whatever the table and the
    requests, the table afterwards is the table before followed by one
    new row per successful registration, in the order the registrations
    were made, each stored with the hash of its password. *)
Theorem rows_only_appended (reqs : list request) (file : table) :
  exists new : list users.row,
    rows (fst (serve reqs file)) = rows file ++ new /\
    Forall2 stored_as new (registered reqs file) /\
    List.length (rows (fst (serve reqs file)))
    = (List.length (rows file) + List.length (registered reqs file))%nat.
Proof.
  destruct (serve_rows reqs file) as (new & Hrows & Hall).
  exists new. split; [exact Hrows|]. split; [exact Hall|].
  rewrite Hrows, length_app, (Forall2_length Hall). reflexivity.
Qed.

(** X3. Only a registration answered with 200 writes.  A request answered
    with any other status leaves the table exactly as it was, the two GET
    handlers leave it as it was whatever they answer, and a request after
    which the table differs is a POST /users that was answered 200 and
    added exactly one row, the one of that registration. *)
Theorem only_successful_registration_writes (req : request) (file : table) :
  (status (respond (snd (handle req file))) <> 200 -> fst (handle req file) = file) /\
  fst (handle GET_users file) = file /\
  (forall user_id : Z, fst (handle (GET_user user_id) file) = file) /\
  (fst (handle req file) <> file ->
   exists (user : UserCreate.t) (utcnow : string) (r : users.row),
     req = POST_users user utcnow /\
     status (respond (snd (handle req file))) = 200 /\
     rows (fst (handle req file)) = rows file ++ [r] /\
     stored_as r (user, utcnow)).
Proof.
  split; [|split; [reflexivity|split; [intros; apply get_user_file|]]].
  - destruct (handle_cases req file) as [[Hsame _]|(user & utcnow & _ & _ & Hh)];
      [intros _; exact Hsame|].
    rewrite Hh. simpl. intros H. now contradiction H.
  - destruct (handle_cases req file) as [[Hsame _]|(user & utcnow & -> & _ & Hh)];
      [intros H; now contradiction H|].
    intros _. rewrite Hh. simpl. eexists user, utcnow, _.
    repeat split; reflexivity.
Qed.

Lemma only_successful_registration_writes_witness :
  fst (handle (POST_users alice_again t2) with_alice) = with_alice /\
  fst (handle (POST_login (UserLogin.Make "alice" "wrong")) with_alice) = with_alice.
Proof.
  split.
  - apply (proj1 (only_successful_registration_writes (POST_users alice_again t2) with_alice)).
    vm_compute. discriminate.
  - apply (proj1 (only_successful_registration_writes
                    (POST_login (UserLogin.Make "alice" "wrong")) with_alice)).
    vm_compute. discriminate.
Defined.

(** ** POST /login: what an answer tells *)

Lemma select_password_row username file digest :
  select_password (get_db file) username = Some digest ->
  exists r, In r (rows file) /\ users.username r = username /\ users.password r = digest.
Proof.
  unfold select_password. simpl.
  destruct (find _ (rows file)) as [r|] eqn:F; [|discriminate].
  simpl. intros H. injection H as <-. apply find_some in F. destruct F as [Hin Hname].
  apply String.eqb_eq in Hname. exists r. auto.
Qed.

(** X5. On any table, a login is answered 200 only if some row carries
    the username and stores exactly the hash of the supplied password; it
    is answered 400 only if some row carries the username and stores
    something else; and it is never answered with a status other than
    200, 400 and 404. *)
Theorem login_answer_is_sound (user : UserLogin.t) (file : table) :
  (status (respond (snd (login user file))) = 200 ->
   exists r, In r (rows file) /\ users.username r = UserLogin.username user /\
             users.password r = hash_password (UserLogin.password user)) /\
  (status (respond (snd (login user file))) = 400 ->
   exists r, In r (rows file) /\ users.username r = UserLogin.username user /\
             users.password r <> hash_password (UserLogin.password user)) /\
  (status (respond (snd (login user file))) = 404 ->
   ~ In (UserLogin.username user) (map users.username (rows file))).
Proof.
  unfold login.
  destruct (select_password (get_db file) (UserLogin.username user)) as [digest|] eqn:S.
  - destruct (select_password_row _ _ _ S) as (r & Hin & Hname & Hpw).
    destruct (String.eqb_spec (hash_password (UserLogin.password user)) digest) as [E|E];
      simpl; (split; [|split]); intros H; try discriminate H;
      exists r; repeat split; congruence.
  - simpl. split; [|split]; intros H; try discriminate H.
    unfold select_password in S. simpl in S.
    destruct (find _ (rows file)) as [r|] eqn:F; [discriminate|].
    intros Hin. apply in_names_existsb in Hin.
    apply existsb_true_find in Hin. destruct Hin as (x & Hx & _).
    unfold name_is in Hx. congruence.
Qed.

Lemma login_answer_is_sound_witness :
  exists r, In r (rows with_alice_bob) /\ users.username r = "bob" /\
            users.password r = hash_password "hunter2".
Proof.
  apply (proj1 (login_answer_is_sound (UserLogin.Make "bob" "hunter2") with_alice_bob)).
  vm_compute. reflexivity.
Defined.

Lemma select_password_kept username file digest later :
  select_password (get_db file) username = Some digest ->
  select_password (get_db (fst (serve later file))) username = Some digest.
Proof.
  destruct (serve_rows later file) as (new & Hrows & _).
  unfold select_password. simpl. rewrite Hrows, find_app.
  destruct (find _ (rows file)); [trivial | discriminate].
Qed.

(** X6. Credentials never change.  Once a login for a username and a
    password is answered 200, or 400, the same login gets the same answer
    after any further requests, whatever they are: no request replaces a
    stored digest or removes an account.  (Only a 404 can turn into
    something else, when the name gets registered.) *)
Theorem login_answer_is_stable (user : UserLogin.t) (file : table) (later : list request) :
  status (respond (snd (login user file))) <> 404 ->
  snd (login user (fst (serve later file))) = snd (login user file).
Proof.
  unfold login.
  destruct (select_password (get_db file) (UserLogin.username user)) as [digest|] eqn:S.
  - intros _. rewrite (select_password_kept _ _ _ later S).
    destruct (negb _); reflexivity.
  - simpl. intros H. now contradiction H.
Qed.

Lemma login_answer_is_stable_witness :
  snd (login (UserLogin.Make "alice" "secret")
             (fst (serve [POST_users alice_again t2; POST_users bob t3] with_alice)))
  = snd (login (UserLogin.Make "alice" "secret") with_alice).
Proof.
  apply (login_answer_is_stable (UserLogin.Make "alice" "secret") with_alice
           [POST_users alice_again t2; POST_users bob t3]).
  vm_compute. discriminate.
Defined.

(** X7. Accounts do not interfere.  A request that is not a registration
    under the username [name] leaves the answer of every login for [name]
    as it was: registering, listing, reading or logging in as somebody
    else neither opens nor closes an account. *)
Theorem login_unaffected_by_others
    (req : request) (name password : string) (file : table) :
  (forall user utcnow, req = POST_users user utcnow -> UserCreate.username user <> name) ->
  snd (login (UserLogin.Make name password) (fst (handle req file)))
  = snd (login (UserLogin.Make name password) file).
Proof.
  intros Hother.
  destruct (handle_cases req file) as [[-> _]|(user & utcnow & Hreq & _ & ->)];
    [reflexivity|].
  specialize (Hother user utcnow Hreq). apply String.eqb_neq in Hother.
  match goal with |- context [login _ (fst (?f, _))] =>
    assert (select_password (get_db f) name = select_password (get_db file) name) as Hsel
  end.
  { unfold select_password. cbn [get_db pending rows]. rewrite find_app.
    destruct (find _ (rows file)); [reflexivity|].
    cbn [find users.username]. rewrite Hother. reflexivity. }
  unfold login. cbn [fst UserLogin.username UserLogin.password]. rewrite Hsel.
  destruct (select_password (get_db file) name); [|reflexivity].
  destruct (negb _); reflexivity.
Qed.

Lemma login_unaffected_by_others_witness :
  snd (login (UserLogin.Make "carol" "x") (fst (handle (POST_users bob t2) with_alice)))
  = snd (login (UserLogin.Make "carol" "x") with_alice).
Proof.
  apply (login_unaffected_by_others (POST_users bob t2) "carol" "x" with_alice).
  intros user utcnow H. injection H as <- _. discriminate.
Defined.

(** ** GET /users and GET /users/{id}: what stays, and what is found *)

(** X8. Accounts are immutable.  Once GET /users/{id} answers with an
    object, it answers with the same object after any further requests;
    and the array GET /users answers with only grows at its end: what it
    listed before is a prefix of what it lists afterwards. *)
Theorem account_objects_are_stable (file : table) (later : list request) :
  (forall (user_id : Z) (v : json),
      snd (get_user user_id file) = Return v ->
      snd (get_user user_id (fst (serve later file))) = Return v) /\
  (exists more : list json,
      snd (get_users (fst (serve later file)))
      = Return (JArr (map (fun r => user_object (selected r)) (rows file) ++ more))).
Proof.
  destruct (serve_rows later file) as (new & Hrows & _). split.
  - intros user_id v. unfold get_user, select_user_by_id. simpl.
    destruct (bind_int user_id) as [e|n]; [discriminate|].
    rewrite Hrows, find_app.
    destruct (find _ (rows file)) as [r|]; simpl; [trivial | discriminate].
  - exists (map (fun r => user_object (selected r)) new).
    unfold get_users, select_users. simpl. rewrite Hrows, map_map, map_app. reflexivity.
Qed.

Lemma account_objects_are_stable_witness :
  snd (get_user 1 (fst (serve [POST_users bob t2; POST_users alice_again t3] with_alice)))
  = Return (JObj [("id", JInt 1); ("username", JStr "alice"); ("email", JStr "a@x.com");
                  ("created_at", JStr t1)]).
Proof.
  apply (proj1 (account_objects_are_stable with_alice
                  [POST_users bob t2; POST_users alice_again t3]) 1).
  vm_compute. reflexivity.
Defined.

Lemma max_rowid_nonneg (rs : list users.row) : (0 <= max_rowid rs)%Z.
Proof. apply (max_rowid_from rs 0). Qed.

(** X9. Register, then look up.  When a registration succeeds, the id it
    got is above every id of the table before, GET /users lists what it
    listed before followed by the new account, and (the id fitting 64
    bits) GET /users/{id} with the new id answers with the new account:
    the username and the email of the request, the time of the call, and
    no password. *)
Theorem registration_then_lookup
    (user : UserCreate.t) (utcnow : string) (file file1 : table) (value : json) :
  create_user user utcnow file = (file1, Return value) ->
  (seq file1 <= int64_max)%Z ->
  let account :=
    JObj [("id", JInt (seq file1)); ("username", JStr (UserCreate.username user));
          ("email", JStr (UserCreate.email user)); ("created_at", JStr utcnow)] in
  Forall (fun r => users.id r < seq file1)%Z (rows file) /\
  snd (get_users file1)
  = Return (JArr (map (fun r => user_object (selected r)) (rows file) ++ [account])) /\
  snd (get_user (seq file1) file1) = Return account.
Proof.
  intros Hcreate Hmax account. subst account.
  apply create_user_return in Hcreate. destruct Hcreate as (_ & -> & _).
  cbn [seq rows] in *.
  pose proof (max_rowid_bound (rows file)) as Hbound.
  pose proof (max_rowid_nonneg (rows file)) as Hnonneg.
  assert (Forall (fun r => users.id r < Z.max (seq file) (max_rowid (rows file)) + 1)%Z
                 (rows file)) as Hbelow
    by (eapply Forall_impl; [|exact Hbound]; simpl; intros r Hr; lia).
  split; [exact Hbelow|]. split.
  - unfold get_users, select_users. cbn [get_db pending rows snd].
    rewrite map_map, map_app. reflexivity.
  - unfold get_user, select_user_by_id.
    rewrite bind_int_in_range by (unfold int64_min; lia).
    cbn [get_db pending rows]. rewrite find_app, find_none_forall.
    + cbn [find users.id]. rewrite Z.eqb_refl. reflexivity.
    + intros r Hin. rewrite Forall_forall in Hbelow. specialize (Hbelow r Hin).
      apply Z.eqb_neq. lia.
Qed.

Lemma registration_then_lookup_witness :
  snd (get_user 2 with_alice_bob)
  = Return (JObj [("id", JInt 2); ("username", JStr "bob"); ("email", JStr "b@x.com");
                  ("created_at", JStr t2)]).
Proof.
  apply (registration_then_lookup bob t2 with_alice with_alice_bob
           (JObj [("message", JStr "회원가입 성공!")])).
  - vm_compute. reflexivity.
  - vm_compute. discriminate.
Defined.

(** X10. The answers of GET /users/{id}, on any table.  The status is 500
    exactly when the id does not fit a signed 64-bit integer (binding it
    raises OverflowError); it is 404 exactly when the id fits and no row
    has it; and an object is returned only for the id of a row, whose
    columns it shows.  When ids are unique, as the schema has it, the row
    with the id is the one shown. *)
Theorem get_user_answers (user_id : Z) (file : table) :
  (status (respond (snd (get_user user_id file))) = 500 <->
   (user_id < int64_min \/ int64_max < user_id)%Z) /\
  (status (respond (snd (get_user user_id file))) = 404 <->
   (int64_min <= user_id <= int64_max)%Z /\
   forall r, In r (rows file) -> users.id r <> user_id) /\
  (forall v : json,
      snd (get_user user_id file) = Return v ->
      exists r, In r (rows file) /\ users.id r = user_id /\ v = user_object (selected r)) /\
  (table_ok file ->
   forall r, In r (rows file) -> users.id r = user_id ->
             (int64_min <= user_id <= int64_max)%Z ->
             snd (get_user user_id file) = Return (user_object (selected r))).
Proof.
  destruct (Z_lt_le_dec user_id int64_min) as [Hlo|Hlo];
    [|destruct (Z_lt_le_dec int64_max user_id) as [Hhi|Hhi]].
  1, 2: rewrite get_user_out_of_range by lia; simpl;
    (split; [split; [intros _; lia | reflexivity]|]);
    (split; [split; [discriminate | intros [? _]; lia]|]);
    (split; [discriminate | intros; lia]).
  unfold get_user, select_user_by_id.
  rewrite bind_int_in_range by lia. cbn [get_db pending].
  destruct (find (fun r => (users.id r =? user_id)%Z) (rows file)) as [r|] eqn:F;
    cbn [option_map close committed snd respond status].
  - apply find_some in F as Hr. destruct Hr as [Hin Hid]. apply Z.eqb_eq in Hid.
    split; [split; [discriminate | lia]|].
    split; [split; [discriminate | intros [_ Hnone]; now elim (Hnone r Hin)]|].
    split.
    + intros v H. injection H as <-. exists r. auto.
    + intros Hok r' Hin' Hid' _. rewrite (find_id_some _ _ r' Hok Hin' Hid') in F.
      injection F as ->. reflexivity.
  - split; [split; [discriminate | lia]|].
    split; [split; [intros _; split; [lia|] | reflexivity]|].
    + intros r Hin Hid. apply (find_none _ _ F) in Hin. apply Z.eqb_neq in Hin.
      contradiction.
    + split; [discriminate|].
      intros Hok r Hin Hid _. rewrite (find_id_some _ _ r Hok Hin Hid) in F. discriminate.
Qed.

Lemma get_user_answers_witness :
  status (respond (snd (get_user (-9223372036854775809) with_alice_bob))) = 500 /\
  status (respond (snd (get_user 3 with_alice_bob))) = 404 /\
  snd (get_user 1 with_alice_bob)
  = Return (user_object (selected (users.Row 1 "alice" "a@x.com" (hash_password "secret") t1))).
Proof.
  split; [|split].
  - apply (proj1 (get_user_answers (-9223372036854775809) with_alice_bob)).
    left. vm_compute. reflexivity.
  - apply (proj1 (proj2 (get_user_answers 3 with_alice_bob))). split.
    + vm_compute. split; discriminate.
    + vm_compute. intros r [<-|[<-|[]]]; discriminate.
  - apply (proj2 (proj2 (proj2 (get_user_answers 1 with_alice_bob)))).
    + apply (handle_ok (POST_users bob t2)), (handle_ok (POST_users alice t1)).
      exact empty_table_ok.
    + vm_compute. left. reflexivity.
    + reflexivity.
    + vm_compute. split; discriminate.
Defined.

(** ** Restarting the service *)

Lemma serve_length reqs file : List.length (snd (serve reqs file)) = List.length reqs.
Proof.
  revert file. induction reqs as [|req rest IH]; intros file; [reflexivity|].
  simpl. destruct (handle req file) as [file1 o]. specialize (IH file1).
  destruct (serve rest file1) as [file2 rs]. simpl in *. now rewrite IH.
Qed.

Lemma serve_app_snd reqs1 reqs2 file :
  snd (serve (reqs1 ++ reqs2) file)
  = snd (serve reqs1 file) ++ snd (serve reqs2 (fst (serve reqs1 file))).
Proof.
  revert file. induction reqs1 as [|req reqs1 IH]; intros file; [reflexivity|].
  simpl. destruct (handle req file) as [file1 o]. specialize (IH file1).
  destruct (serve (reqs1 ++ reqs2) file1) as [file2 rs].
  destruct (serve reqs1 file1) as [file3 rs1]. simpl in *. now rewrite IH.
Qed.

(** X11. [init_db] may run on every start: on a file that has the table
    it changes nothing (CREATE TABLE IF NOT EXISTS), so running it twice
    is running it once, and stopping the service after some requests and
    starting it again before the next ones is invisible: the table at
    the end and the answers to the later requests are those of one run
    over all the requests. *)
Theorem restart_is_invisible (file : option table) (reqs1 reqs2 : list request) :
  init_db (Some (init_db file)) = init_db file /\
  let stopped := fst (serve reqs1 (init_db file)) in
  fst (serve reqs2 (init_db (Some stopped)))
  = fst (serve (reqs1 ++ reqs2) (init_db file)) /\
  snd (serve reqs2 (init_db (Some stopped)))
  = skipn (List.length reqs1) (snd (serve (reqs1 ++ reqs2) (init_db file))).
Proof.
  split; [apply init_db_idempotent|]. intros stopped. subst stopped.
  rewrite init_db_keeps. split.
  - symmetry. apply serve_app_fst.
  - rewrite serve_app_snd, <- (serve_length reqs1 (init_db file)), skipn_app.
    rewrite skipn_all, PeanoNat.Nat.sub_diag. reflexivity.
Qed.

(** ** The stored digest is not the password *)

(** X12. What POST /users stores in the password column is the plaintext
    itself only if the plaintext is its own SHA-256 digest in hex; in
    particular never for a password that is not made of exactly 64
    lowercase hexadecimal digits.  This holds of [hash_password] and so
    of every row of every table the service reaches from an empty
    database. *)
Theorem plaintext_is_not_stored :
  (forall p : string,
      hash_password p = p ->
      String.length p = 64%nat /\
      Forall (fun c => is_lower_hex c = true) (list_ascii_of_string p)) /\
  (forall (reqs : list request) (r : users.row) (reg : UserCreate.t * string),
      In (r, reg) (combine (rows (fst (serve reqs (init_db None))))
                           (registered reqs (init_db None))) ->
      String.length (UserCreate.password (fst reg)) <> 64%nat ->
      users.password r = hash_password (UserCreate.password (fst reg)) /\
      users.password r <> UserCreate.password (fst reg)).
Proof.
  assert (forall p, hash_password p = p -> String.length p = 64%nat) as Hlen.
  { intros p H. rewrite <- H. apply hexdigest_length. }
  split.
  - intros p H. split; [now apply Hlen|].
    rewrite <- H. apply hex_of_bytes_lower.
  - intros reqs r reg. destruct (serve_rows reqs (init_db None)) as (new & Hrows & Hall).
    rewrite Hrows. change (rows (init_db None) ++ new) with new. clear Hrows.
    induction Hall as [|r0 reg0 new regs Hr _ IH]; simpl; [contradiction|].
    intros [Heq|Hin] Hneq; [|now apply IH].
    injection Heq as -> ->. destruct Hr as (_ & _ & Hpw & _).
    split; [exact Hpw|]. intros Hsame. apply Hneq, Hlen. congruence.
Qed.

Lemma plaintext_is_not_stored_witness :
  users.password (users.Row 1 "alice" "a@x.com" (hash_password "secret") t1)
  = hash_password "secret" /\
  users.password (users.Row 1 "alice" "a@x.com" (hash_password "secret") t1) <> "secret".
Proof.
  apply (proj2 plaintext_is_not_stored [POST_users alice t1; POST_users carol t2]
           (users.Row 1 "alice" "a@x.com" (hash_password "secret") t1) (alice, t1)).
  - vm_compute. left. reflexivity.
  - vm_compute. discriminate.
Defined.

(** ** The digest and its sixty-four characters *)

Lemma add32_word32 x y : is_word32 (Sha256.add32 x y).
Proof. unfold is_word32, Sha256.add32, Sha256.wrap32. apply Z.mod_pos_bound. lia. Qed.

Lemma compress_words h block : Forall is_word32 (chain_words (Sha256.compress h block)).
Proof.
  unfold Sha256.compress, chain_words. cbv zeta.
  cbn [Sha256.c0 Sha256.c1 Sha256.c2 Sha256.c3 Sha256.c4 Sha256.c5 Sha256.c6 Sha256.c7].
  repeat constructor; apply add32_word32.
Qed.

Lemma sha256_words msg : Forall is_word32 (chain_words (Sha256.sha256 msg)).
Proof.
  unfold Sha256.sha256.
  assert (Forall is_word32 (chain_words Sha256.initial_chain)) as Hinit
    by (repeat constructor; unfold is_word32; simpl; lia).
  revert Hinit. generalize Sha256.initial_chain.
  induction (Sha256.blocks (Sha256.be_words (Sha256.pad msg))) as [|b bs IH];
    intros h Hh; [exact Hh|].
  cbn [fold_left]. apply IH, compress_words.
Qed.

Lemma nth_hex_inj (i j : nat) :
  (i < 16)%nat -> (j < 16)%nat ->
  nth i (list_ascii_of_string "0123456789abcdef") "0"%char
  = nth j (list_ascii_of_string "0123456789abcdef") "0"%char ->
  i = j.
Proof.
  intros Hi Hj.
  do 16 (destruct i as [|i]; [do 16 (destruct j as [|j];
           [first [reflexivity | discriminate]|]); lia|]).
  lia.
Qed.

Lemma hex_digit_inj x y :
  Sha256.hex_digit x = Sha256.hex_digit y -> (x mod 16 = y mod 16)%Z.
Proof.
  unfold Sha256.hex_digit. intros H.
  pose proof (Z.mod_pos_bound x 16 ltac:(lia)) as Hx.
  pose proof (Z.mod_pos_bound y 16 ltac:(lia)) as Hy.
  apply nth_hex_inj in H; lia.
Qed.

Lemma hex_of_bytes_inj (bs bs' : list Z) :
  Forall (fun b => 0 <= b < 256)%Z bs -> Forall (fun b => 0 <= b < 256)%Z bs' ->
  Sha256.hex_of_bytes bs = Sha256.hex_of_bytes bs' -> bs = bs'.
Proof.
  intros Hbs. revert bs'. induction Hbs as [|b bs Hb _ IH]; intros bs' Hbs' H.
  - destruct bs'; [reflexivity | discriminate].
  - destruct Hbs' as [|b' bs' Hb' Hbs']; [discriminate|].
    simpl in H. injection H as Hhi Hlo Hrest.
    apply hex_digit_inj in Hhi, Hlo. f_equal; [|now apply IH].
    rewrite (Z.mod_small (b / 16)), (Z.mod_small (b' / 16)) in Hhi
      by (split; [apply Z.div_pos | apply Z.div_lt_upper_bound]; lia).
    rewrite (Z.div_mod b 16), (Z.div_mod b' 16) by lia. lia.
Qed.

Lemma be_bytes_range (width : nat) (x : Z) :
  Forall (fun b => 0 <= b < 256)%Z (Sha256.be_bytes width x).
Proof.
  unfold Sha256.be_bytes. rewrite Forall_map. apply Forall_forall.
  intros i _. apply Z.mod_pos_bound. lia.
Qed.

Lemma be_bytes4_eq (x : Z) :
  Sha256.be_bytes 4 x
  = [(x / 16777216) mod 256; (x / 65536) mod 256; (x / 256) mod 256; (x / 1) mod 256]%Z.
Proof. reflexivity. Qed.

Lemma be_bytes4_inj (x y : Z) :
  is_word32 x -> is_word32 y -> Sha256.be_bytes 4 x = Sha256.be_bytes 4 y -> x = y.
Proof.
  unfold is_word32. intros Hx Hy. rewrite !be_bytes4_eq. intros H.
  injection H as H3 H2 H1 H0.
  Z.to_euclidean_division_equations. lia.
Qed.

Lemma digest_inj (h1 h2 : Sha256.chain) :
  Forall is_word32 (chain_words h1) -> Forall is_word32 (chain_words h2) ->
  Sha256.digest h1 = Sha256.digest h2 -> h1 = h2.
Proof.
  destruct h1 as [a0 a1 a2 a3 a4 a5 a6 a7], h2 as [b0 b1 b2 b3 b4 b5 b6 b7].
  unfold chain_words, Sha256.digest.
  cbn [Sha256.c0 Sha256.c1 Sha256.c2 Sha256.c3 Sha256.c4 Sha256.c5 Sha256.c6 Sha256.c7].
  intros Ha Hb H.
  repeat match goal with
         | Hf : Forall _ (_ :: _) |- _ => inversion Hf; subst; clear Hf
         end.
  rewrite !be_bytes4_eq in H. cbn [app] in H.
  injection H as
    A03 A02 A01 A00 A13 A12 A11 A10 A23 A22 A21 A20 A33 A32 A31 A30
    A43 A42 A41 A40 A53 A52 A51 A50 A63 A62 A61 A60 A73 A72 A71 A70.
  f_equal; apply be_bytes4_inj; try assumption; rewrite !be_bytes4_eq; congruence.
Qed.

(** X13. Comparing stored digests as strings, as POST /login does, is
    comparing SHA-256 values: the eight words of every digest are 32-bit
    words, and two passwords get the same 64 characters from
    [hash_password] exactly when their SHA-256 values are equal, for the
    hexadecimal rendering loses nothing. *)
Theorem digest_string_is_faithful :
  (forall msg : list Z, Forall is_word32 (chain_words (Sha256.sha256 msg))) /\
  (forall p q : string,
      hash_password p = hash_password q <->
      Sha256.sha256 (encode_utf8 p) = Sha256.sha256 (encode_utf8 q)).
Proof.
  split; [exact sha256_words|].
  intros p q. split; [|intros H; unfold hash_password; now rewrite H].
  unfold hash_password, Sha256.hexdigest. intros H.
  apply digest_inj; try apply sha256_words.
  apply hex_of_bytes_inj; [| |exact H];
    unfold Sha256.digest; repeat (apply Forall_app; split); apply be_bytes_range.
Qed.

(** ** Every byte of the password is hashed *)

Lemma be_words_length (n : nat) :
  forall bs : list Z, List.length bs = (4 * n)%nat -> List.length (Sha256.be_words bs) = n.
Proof.
  induction n as [|n IH]; intros bs H.
  - destruct bs; [reflexivity | discriminate].
  - do 4 (destruct bs as [|? bs]; [simpl in H; lia|]).
    cbn [Sha256.be_words List.length]. f_equal. apply IH. simpl in H. lia.
Qed.

Lemma blocks_whole (n : nat) :
  forall ws : list Z,
    List.length ws = (16 * n)%nat ->
    List.length (Sha256.blocks ws) = n /\ List.concat (Sha256.blocks ws) = ws /\
    Forall (fun b => List.length b = 16%nat) (Sha256.blocks ws).
Proof.
  induction n as [|n IH]; intros ws H.
  - destruct ws; [repeat split; constructor | discriminate].
  - do 16 (destruct ws as [|? ws]; [simpl in H; lia|]).
    destruct (IH ws) as (Hlen & Hcat & Hall); [simpl in H; lia|].
    cbn [Sha256.blocks List.length List.concat app]. rewrite Hlen, Hcat.
    repeat split. constructor; [reflexivity | exact Hall].
Qed.

Lemma pad_length (msg : list Z) :
  List.length (Sha256.pad msg) = (64 * ((List.length msg + 8) / 64 + 1))%nat.
Proof.
  unfold Sha256.pad, Sha256.be_bytes. cbv zeta.
  rewrite !length_app, repeat_length, length_map, length_rev, length_seq.
  cbn [List.length].
  apply Nat2Z.inj. rewrite !Nat2Z.inj_add, Nat2Z.inj_mul, Nat2Z.inj_add, Nat2Z.inj_div.
  rewrite Z2Nat.id by (apply Z.mod_pos_bound; lia).
  rewrite Nat2Z.inj_add. cbn [Z.of_nat Pos.of_succ_nat Pos.succ].
  Z.to_euclidean_division_equations. lia.
Qed.

(** X14. No byte of a password is left out of its hash.  A password of n
    bytes is padded to 64 * ((n + 8) / 64 + 1) bytes (integer division)
    that begin with the password itself, and these are cut into
    (n + 8) / 64 + 1 blocks of sixteen words with nothing left over; so
    at least one block is compressed, even for the empty password. *)
Theorem password_is_hashed_whole (msg : list Z) :
  let n := ((List.length msg + 8) / 64 + 1)%nat in
  firstn (List.length msg) (Sha256.pad msg) = msg /\
  List.length (Sha256.pad msg) = (64 * n)%nat /\
  List.length (Sha256.be_words (Sha256.pad msg)) = (16 * n)%nat /\
  List.concat (Sha256.blocks (Sha256.be_words (Sha256.pad msg)))
  = Sha256.be_words (Sha256.pad msg) /\
  Forall (fun b => List.length b = 16%nat)
         (Sha256.blocks (Sha256.be_words (Sha256.pad msg))) /\
  List.length (Sha256.blocks (Sha256.be_words (Sha256.pad msg))) = n /\
  (1 <= n)%nat.
Proof.
  intros n.
  assert (List.length (Sha256.be_words (Sha256.pad msg)) = (16 * n)%nat) as Hwords
    by (apply be_words_length; rewrite pad_length; subst n; lia).
  destruct (blocks_whole n _ Hwords) as (Hlen & Hcat & Hall).
  split; [|split; [apply pad_length|repeat split; try assumption; subst n; lia]].
  unfold Sha256.pad. cbv zeta.
  rewrite firstn_app, PeanoNat.Nat.sub_diag, firstn_all. cbn [firstn].
  apply app_nil_r.
Qed.

(** * The handlers as Python runs them *)

(** ** Python strings and their encoding *)

Example py_encode_ascii : Py.encode (Py.latin1 "alice") = inr "alice".
Proof. reflexivity. Qed.

Example py_encode_hangul : Py.encode [54924; 50896; 44032; 51077]%Z = inr "회원가입".
Proof. vm_compute. reflexivity. Qed.

Example py_encode_two_and_four_bytes :
  Py.encode [233; 128512]%Z = inr "é😀".
Proof. vm_compute. reflexivity. Qed.

Lemma py_utf8_error (c : Z) (e : sqlite3_error) :
  Py.utf8 c = inl e -> e = UnicodeEncodeError /\ (55296 <= c <= 57343)%Z.
Proof.
  unfold Py.utf8.
  destruct (c <? 128)%Z; [discriminate|].
  destruct (c <? 2048)%Z; [discriminate|].
  destruct ((55296 <=? c) && (c <=? 57343))%Z eqn:E.
  - intros H. injection H as <-. apply andb_true_iff in E. destruct E as [E1 E2].
    apply Z.leb_le in E1, E2. auto.
  - destruct (c <? 65536)%Z; discriminate.
Qed.

Lemma py_utf8_surrogate (c : Z) :
  (55296 <= c <= 57343)%Z -> Py.utf8 c = inl UnicodeEncodeError.
Proof.
  intros [H1 H2]. unfold Py.utf8.
  destruct (Z.ltb_spec c 128); [lia|]. destruct (Z.ltb_spec c 2048); [lia|].
  apply Z.leb_le in H1, H2. rewrite H1, H2. reflexivity.
Qed.

(** A string encodes unless it holds a surrogate, and then the exception
    is UnicodeEncodeError. *)
Lemma py_encode_bytes_cases (s : Py.str) :
  (Exists (fun c => 55296 <= c <= 57343)%Z s /\ Py.encode_bytes s = inl UnicodeEncodeError) \/
  (Forall (fun c => ~ (55296 <= c <= 57343))%Z s /\ exists bytes, Py.encode_bytes s = inr bytes).
Proof.
  induction s as [|c s IH]; simpl.
  - right. split; [constructor | eexists; reflexivity].
  - destruct (Py.utf8 c) as [e|bytes] eqn:U.
    + apply py_utf8_error in U. destruct U as [-> Hc]. left. split; [now left | reflexivity].
    + assert (~ (55296 <= c <= 57343)%Z) as Hc
        by (intros Hc; rewrite (py_utf8_surrogate _ Hc) in U; discriminate).
      destruct IH as [[Hex ->]|[Hall [more ->]]].
      * left. split; [now right | reflexivity].
      * right. split; [now constructor | eexists; reflexivity].
Qed.

Lemma py_encode_cases (s : Py.str) :
  (Exists (fun c => 55296 <= c <= 57343)%Z s /\ Py.encode s = inl UnicodeEncodeError) \/
  (Forall (fun c => ~ (55296 <= c <= 57343))%Z s /\ exists data, Py.encode s = inr data).
Proof.
  unfold Py.encode.
  destruct (py_encode_bytes_cases s) as [[Hex ->]|[Hall [bytes ->]]];
    [left | right]; split; try assumption; [reflexivity | eexists; reflexivity].
Qed.

Lemma py_encode_error (s : Py.str) (e : sqlite3_error) :
  Py.encode s = inl e -> e = UnicodeEncodeError.
Proof.
  destruct (py_encode_cases s) as [[_ ->]|[_ [data ->]]]; [|discriminate].
  intros H. now injection H as <-.
Qed.

Lemma py_hash_password_encoded (p : Py.str) (data : string) :
  Py.encode p = inr data -> Py.hash_password p = inr (hash_password data).
Proof. unfold Py.hash_password. intros ->. reflexivity. Qed.

Lemma py_hash_password_error (p : Py.str) (e : sqlite3_error) :
  Py.encode p = inl e -> Py.hash_password p = inl UnicodeEncodeError.
Proof.
  intros H. unfold Py.hash_password. rewrite H. now rewrite (py_encode_error _ _ H).
Qed.

(** C6, as amended.  For every plaintext that has a UTF-8 encoding, that
    is every [str] without a lone surrogate, [hash_password] returns a
    digest and does not raise; the digest is the SHA-256 of the encoding
    in hexadecimal, a string of exactly 64 characters, each a lowercase
    hexadecimal digit, whatever the length of the plaintext; and it is a
    function of the encoded plaintext alone (no state, no clock, no
    salt): every call on it returns this digest. *)
Theorem hash_password_digest (p : Py.str) :
  Forall (fun c => ~ (55296 <= c <= 57343))%Z p ->
  exists data digest : string,
    Py.encode p = inr data /\
    Py.hash_password p = inr digest /\
    digest = Sha256.hexdigest (Sha256.sha256 (encode_utf8 data)) /\
    String.length digest = 64%nat /\
    Forall (fun c => is_lower_hex c = true) (list_ascii_of_string digest) /\
    (forall q : Py.str, Py.encode q = inr data -> Py.hash_password q = inr digest).
Proof.
  intros Hp. destruct (py_encode_cases p) as [[Hex _]|[_ [data Hdata]]].
  - exfalso. rewrite Forall_forall in Hp. apply Exists_exists in Hex.
    destruct Hex as (c & Hin & Hc). exact (Hp c Hin Hc).
  - exists data, (hash_password data). split; [exact Hdata|].
    split; [now apply py_hash_password_encoded|]. split; [reflexivity|].
    split; [apply hexdigest_length|]. split; [apply hex_of_bytes_lower|].
    intros q Hq. now apply py_hash_password_encoded.
Qed.

Lemma hash_password_digest_witness :
  Py.hash_password (Py.latin1 "abc")
  = inr "ba7816bf8f01cfea414140de5dae2223b00361a396177a9cb410ff61f20015ad" /\
  Py.hash_password [54924; 50896]%Z
  = inr "e335b89934ea6dc403717c96d6c727ad19ed46c5ac726a5fe69a5718a5e8a8fa".
Proof.
  split.
  - destruct (hash_password_digest (Py.latin1 "abc")) as (data & digest & Hd & Hh & Hdig & _).
    + repeat constructor; vm_compute; intros [H _]; now apply H.
    + rewrite Hh, Hdig. vm_compute in Hd. injection Hd as <-. vm_compute. reflexivity.
  - destruct (hash_password_digest [54924; 50896]%Z) as (data & digest & Hd & Hh & Hdig & _).
    + repeat constructor; vm_compute; intros [H _]; now apply H.
    + rewrite Hh, Hdig. vm_compute in Hd. injection Hd as <-. vm_compute. reflexivity.
Defined.

(** C6 as first stated fails on a plaintext with a lone surrogate, such
    as ['\ud800']: it has no UTF-8 encoding, and [hash_password] raises
    UnicodeEncodeError instead of returning a digest. *)
Lemma hash_password_lone_surrogate :
  Py.hash_password lone_surrogate = inl UnicodeEncodeError.
Proof. reflexivity. Qed.

(** ** The two layers agree where every string encodes and the table is
    not full *)

Lemma encode_user_some (user : Py.UserCreate.t) (u : UserCreate.t) :
  encode_user user = Some u ->
  Py.encode (Py.UserCreate.username user) = inr (UserCreate.username u) /\
  Py.encode (Py.UserCreate.email user) = inr (UserCreate.email u) /\
  Py.encode (Py.UserCreate.password user) = inr (UserCreate.password u).
Proof.
  unfold encode_user.
  destruct (Py.encode (Py.UserCreate.username user)) as [?|username]; [discriminate|].
  destruct (Py.encode (Py.UserCreate.email user)) as [?|email]; [discriminate|].
  destruct (Py.encode (Py.UserCreate.password user)) as [?|password]; [discriminate|].
  intros H. injection H as <-. auto.
Qed.

Lemma py_create_user_encoded user utcnow file u :
  encode_user user = Some u -> ~ full file ->
  Py.create_user user utcnow file = create_user u utcnow file.
Proof.
  intros Hu Hfull. apply encode_user_some in Hu. destruct Hu as (Hn & Hm & Hp).
  unfold Py.create_user, Py.insert_user, create_user.
  rewrite (py_hash_password_encoded _ _ Hp), Hn, Hm. cbn [get_db pending].
  unfold full in Hfull. destruct (Z.leb_spec int64_max (Z.max (seq file) (max_rowid (rows file))));
    [contradiction|].
  destruct (insert_user _ _ _ _ _) as [[| | |]|conn]; reflexivity.
Qed.

Lemma py_create_user_unencodable user utcnow file :
  encode_user user = None ->
  Py.create_user user utcnow file = (file, Uncaught UnicodeEncodeError).
Proof.
  unfold encode_user, Py.create_user, Py.insert_user.
  destruct (Py.encode (Py.UserCreate.password user)) as [e|password] eqn:Hp.
  - intros _. rewrite (py_hash_password_error _ _ Hp). reflexivity.
  - rewrite (py_hash_password_encoded _ _ Hp).
    destruct (Py.encode (Py.UserCreate.username user)) as [e|username] eqn:Hn.
    + intros _. rewrite (py_encode_error _ _ Hn). reflexivity.
    + destruct (Py.encode (Py.UserCreate.email user)) as [e|email] eqn:Hm; [|discriminate].
      intros _. rewrite (py_encode_error _ _ Hm). reflexivity.
Qed.

Lemma py_create_user_full user utcnow file u :
  encode_user user = Some u -> full file ->
  Py.create_user user utcnow file = (file, Uncaught OperationalError).
Proof.
  intros Hu Hfull. apply encode_user_some in Hu. destruct Hu as (Hn & Hm & Hp).
  unfold Py.create_user, Py.insert_user.
  rewrite (py_hash_password_encoded _ _ Hp), Hn, Hm. cbn [get_db pending].
  unfold full in Hfull. apply Z.leb_le in Hfull. rewrite Hfull. reflexivity.
Qed.

Lemma full_dec (file : table) : full file \/ ~ full file.
Proof. unfold full. lia. Qed.

Lemma py_login_encoded user file name password :
  Py.encode (Py.UserLogin.username user) = inr name ->
  Py.encode (Py.UserLogin.password user) = inr password ->
  Py.login user file = login (UserLogin.Make name password) file.
Proof.
  intros Hn Hp. unfold Py.login, login.
  rewrite Hn, (py_hash_password_encoded _ _ Hp). reflexivity.
Qed.

Lemma py_login_file user file : fst (Py.login user file) = file.
Proof.
  unfold Py.login. destruct (Py.encode (Py.UserLogin.username user)); [reflexivity|].
  destruct (select_password (get_db file) s); [|reflexivity].
  destruct (Py.hash_password (Py.UserLogin.password user)); [reflexivity|].
  destruct (negb _); reflexivity.
Qed.

Lemma py_create_user_file_or_row user utcnow file :
  (fst (Py.create_user user utcnow file) = file /\
   status (respond (snd (Py.create_user user utcnow file))) <> 200) \/
  (exists u, encode_user user = Some u /\ ~ full file /\
             existsb (name_is (UserCreate.username u)) (rows file) = false /\
             Py.create_user user utcnow file = create_user u utcnow file).
Proof.
  destruct (encode_user user) as [u|] eqn:Hu.
  - destruct (full_dec file) as [Hfull|Hfull].
    + left. rewrite (py_create_user_full _ _ _ _ Hu Hfull). split; [reflexivity|discriminate].
    + rewrite (py_create_user_encoded _ _ _ _ Hu Hfull).
      destruct (existsb (name_is (UserCreate.username u)) (rows file)) eqn:E.
      * left. rewrite create_user_taken by exact E. split; [reflexivity|discriminate].
      * right. exists u. auto.
  - left. rewrite (py_create_user_unencodable _ _ _ Hu). split; [reflexivity|discriminate].
Qed.

(** ** POST /users under a username that is taken *)

(** Where the strings encode and the table is not full, a registration
    under a username some row carries is answered 400; and whatever the
    strings and the table, it leaves the table as it was. *)
Lemma py_duplicate_registration user utcnow file name :
  Py.encode (Py.UserCreate.username user) = inr name ->
  In name (map users.username (rows file)) ->
  fst (Py.create_user user utcnow file) = file /\
  (encode_user user <> None -> ~ full file ->
   respond (snd (Py.create_user user utcnow file))
   = Response 400 (JObj [("detail", JStr "이미 존재하는 유저입니다.")])).
Proof.
  intros Hname Hin. split.
  - destruct (py_create_user_file_or_row user utcnow file)
      as [[H _]|(u & Hu & _ & Hfresh & _)]; [exact H|].
    apply encode_user_some in Hu. destruct Hu as (Hn & _). rewrite Hname in Hn.
    injection Hn as ->. apply in_names_existsb in Hin. congruence.
  - intros Hu Hfull. destruct (encode_user user) as [u|] eqn:E; [|now contradiction Hu].
    rewrite (py_create_user_encoded _ _ _ _ E Hfull).
    apply encode_user_some in E. destruct E as (Hn & _). rewrite Hname in Hn.
    injection Hn as ->. rewrite create_user_taken; [reflexivity|].
    now apply in_names_existsb.
Qed.

(** C2, at the inputs where the code departs from it.  The table holds an
    account alice.  A second registration under alice whose password is
    the lone surrogate ['\ud800'] is not answered 400: [hash_password]
    raises UnicodeEncodeError inside the [try], whose handler is for
    IntegrityError only, and the answer is a 500.  Likewise on a table
    whose largest id is the largest 64-bit integer, where the INSERT
    raises OperationalError before the UNIQUE constraint is looked at.
    In both cases the table is left as it was; with strings that encode
    and a table that is not full the answer is the 400 of the claim. *)
Theorem duplicate_registration_uncaught :
  In "alice" (map users.username (rows with_alice)) /\
  Py.encode (Py.UserCreate.username py_alice_unencodable) = inr "alice" /\
  Py.create_user py_alice_unencodable t2 with_alice
  = (with_alice, Uncaught UnicodeEncodeError) /\
  respond (snd (Py.create_user py_alice_unencodable t2 with_alice))
  = Response 500 (JStr "Internal Server Error") /\
  In "alice" (map users.username (rows last_id_taken)) /\
  Py.create_user py_alice_again t2 last_id_taken
  = (last_id_taken, Uncaught OperationalError) /\
  respond (snd (Py.create_user py_alice_again t2 with_alice))
  = Response 400 (JObj [("detail", JStr "이미 존재하는 유저입니다.")]).
Proof. repeat split; vm_compute; auto. Qed.

(** ** POST /login on Python strings *)

(** Where the username encodes: 404 when no row carries it (the password
    is not looked at); and when a row carries it and the password
    encodes, 400 or 200 as the stored digest differs from the hash of the
    password or equals it.  The table is taken to satisfy its schema. *)
Lemma py_login_status (user : Py.UserLogin.t) (file : table) (name : string) :
  table_ok file ->
  Py.encode (Py.UserLogin.username user) = inr name ->
  ((forall r, In r (rows file) -> users.username r <> name) ->
   respond (snd (Py.login user file))
   = Response 404 (JObj [("detail", JStr "아이디 또는 비밀번호가 다릅니다.")])) /\
  (forall r password,
      In r (rows file) -> users.username r = name ->
      Py.encode (Py.UserLogin.password user) = inr password ->
      (hash_password password <> users.password r ->
       respond (snd (Py.login user file))
       = Response 400 (JObj [("detail", JStr "비밀번호가 다릅니다.")])) /\
      (hash_password password = users.password r ->
       respond (snd (Py.login user file))
       = Response 200 (JObj [("message", JStr (name ++ "님 환영합니다."))]))).
Proof.
  intros Hok Hname. split.
  - intros Hnone. unfold Py.login. rewrite Hname, (select_password_none _ _ Hnone).
    reflexivity.
  - intros r password Hin Hr Hp. rewrite (py_login_encoded _ _ _ _ Hname Hp).
    unfold login. cbn [UserLogin.username UserLogin.password].
    rewrite (select_password_some _ _ r Hok Hin Hr). split; intros H.
    + apply String.eqb_neq in H. rewrite H. reflexivity.
    + apply String.eqb_eq in H. rewrite H. reflexivity.
Qed.

(** C3, at the inputs where the code departs from it.  No account has
    the username ['\ud800'] (the table is empty), yet POST /login does
    not answer 404: binding the username raises UnicodeEncodeError,
    nothing catches it, and the answer is a 500.  And for the account
    alice with the password ['\ud800'], whose hash cannot equal the
    stored digest, the answer is not 400: [hash_password] raises, 500
    again.  With strings that encode the answers are those of the claim:
    404 for an unknown name, 400 for a wrong password, 200 with the
    username in the message for the right one. *)
Theorem login_uncaught :
  rows fresh = [] /\
  Py.login (Py.UserLogin.Make lone_surrogate (Py.latin1 "secret")) fresh
  = (fresh, Uncaught UnicodeEncodeError) /\
  respond (snd (Py.login (Py.UserLogin.Make lone_surrogate (Py.latin1 "secret")) fresh))
  = Response 500 (JStr "Internal Server Error") /\
  respond (snd (Py.login (Py.UserLogin.Make (Py.latin1 "alice") lone_surrogate) with_alice))
  = Response 500 (JStr "Internal Server Error") /\
  respond (snd (Py.login (Py.UserLogin.Make (Py.latin1 "carol") (Py.latin1 "secret"))
                         with_alice))
  = Response 404 (JObj [("detail", JStr "아이디 또는 비밀번호가 다릅니다.")]) /\
  respond (snd (Py.login (Py.UserLogin.Make (Py.latin1 "alice") (Py.latin1 "wrong"))
                         with_alice))
  = Response 400 (JObj [("detail", JStr "비밀번호가 다릅니다.")]) /\
  respond (snd (Py.login (Py.UserLogin.Make (Py.latin1 "alice") (Py.latin1 "secret"))
                         with_alice))
  = Response 200 (JObj [("message", JStr "alice님 환영합니다.")]).
Proof. repeat split; vm_compute; reflexivity. Qed.

(** C9. POST /login leaves the table as it was, whatever the table and
    the request: the rows (and the id counter) after the call are those
    before it.  This holds of the handler on encoded strings, and of the
    handler on Python strings for each of its answers, the 200, the 400,
    the 404 and the 500 of a string that does not encode. *)
Theorem login_leaves_table (user : UserLogin.t) (file : table) :
  fst (login user file) = file /\
  rows (fst (login user file)) = rows file /\
  (forall user' : Py.UserLogin.t,
      fst (Py.login user' file) = file /\ rows (fst (Py.login user' file)) = rows file).
Proof.
  split; [apply login_file|]. split; [now rewrite login_file|].
  intros user'. rewrite py_login_file. split; reflexivity.
Qed.

(** ** What is stored, and what the answers show *)

Lemma py_create_user_outcomes user utcnow file :
  snd (Py.create_user user utcnow file) = Return (JObj [("message", JStr "회원가입 성공!")]) \/
  snd (Py.create_user user utcnow file) = HTTPException 400 "이미 존재하는 유저입니다." \/
  exists e, snd (Py.create_user user utcnow file) = Uncaught e.
Proof.
  destruct (encode_user user) as [u|] eqn:Hu.
  - destruct (full_dec file) as [Hfull|Hfull].
    + rewrite (py_create_user_full _ _ _ _ Hu Hfull). right. right. eexists. reflexivity.
    + rewrite (py_create_user_encoded _ _ _ _ Hu Hfull).
      destruct (existsb (name_is (UserCreate.username u)) (rows file)) eqn:E.
      * rewrite create_user_taken by exact E. right. left. reflexivity.
      * rewrite create_user_fresh by exact E. left. reflexivity.
  - rewrite (py_create_user_unencodable _ _ _ Hu). right. right. eexists. reflexivity.
Qed.

Lemma py_create_user_respond user utcnow file :
  respond (snd (Py.create_user user utcnow file))
  = Response 200 (JObj [("message", JStr "회원가입 성공!")]) \/
  respond (snd (Py.create_user user utcnow file))
  = Response 400 (JObj [("detail", JStr "이미 존재하는 유저입니다.")]) \/
  respond (snd (Py.create_user user utcnow file))
  = Response 500 (JStr "Internal Server Error").
Proof.
  destruct (py_create_user_outcomes user utcnow file) as [H|[H|[e H]]]; rewrite H; auto.
Qed.

(** C4. In every state the service reaches from an empty database, the
    rows are, in order, the successful registrations, and the password
    column of each row is [hash_password] of the plaintext submitted
    with that registration (a 64-character digest); the other columns
    are the username, the email and the time of the call.  The answers
    of POST /users and of POST /login depend on the plaintext only
    through their status (for POST /users: whether the plaintext
    encodes): two requests that differ in the plaintext alone and get
    the same status get the same answer, so no answer carries the
    plaintext. *)
Theorem stored_password_is_digest :
  (forall reqs : list request,
      Forall2 stored_as (rows (fst (serve reqs (init_db None))))
                        (registered reqs (init_db None)) /\
      Forall (fun r => String.length (users.password r) = 64%nat)
             (rows (fst (serve reqs (init_db None))))) /\
  (forall (user : Py.UserCreate.t) (p' : Py.str) (utcnow : string) (file : table),
      let user' := Py.UserCreate.Make (Py.UserCreate.username user)
                                      (Py.UserCreate.email user) p' in
      status (respond (snd (Py.create_user user utcnow file)))
      = status (respond (snd (Py.create_user user' utcnow file))) ->
      respond (snd (Py.create_user user utcnow file))
      = respond (snd (Py.create_user user' utcnow file))) /\
  (forall (name p p' : string) (file : table),
      status (respond (snd (login (UserLogin.Make name p) file)))
      = status (respond (snd (login (UserLogin.Make name p') file))) ->
      respond (snd (login (UserLogin.Make name p) file))
      = respond (snd (login (UserLogin.Make name p') file))).
Proof.
  split; [|split].
  - intros reqs. destruct (serve_rows reqs (init_db None)) as (new & Hrows & Hall).
    rewrite Hrows. change (rows (init_db None) ++ new) with new.
    split; [exact Hall|]. clear Hrows.
    induction Hall as [|r reg new regs Hr _ IH]; constructor;
      [now apply (stored_as_length r reg) | exact IH].
  - intros user p' utcnow file user'.
    destruct (py_create_user_respond user utcnow file) as [H|[H|H]],
             (py_create_user_respond user' utcnow file) as [H'|[H'|H']];
      rewrite H, H'; simpl; intros E; solve [reflexivity | discriminate E].
  - intros name p p' file. unfold login.
    cbn [UserLogin.username UserLogin.password].
    destruct (select_password (get_db file) name) as [digest|]; [|reflexivity].
    destruct (String.eqb (hash_password p) digest),
             (String.eqb (hash_password p') digest);
      cbn [negb snd respond status]; intros H;
      solve [reflexivity | discriminate H].
Qed.

Lemma stored_password_is_digest_witness :
  Forall2 stored_as
    (rows (fst (serve [POST_users alice t1; POST_users alice_again t2; POST_users bob t3]
                      (init_db None))))
    [(alice, t1); (bob, t3)] /\
  respond (snd (Py.create_user py_alice t1 with_alice))
  = respond (snd (Py.create_user
                    (Py.UserCreate.Make (Py.latin1 "alice") (Py.latin1 "a@x.com")
                                        (Py.latin1 "other")) t1 with_alice)) /\
  respond (snd (login (UserLogin.Make "alice" "wrong") with_alice))
  = respond (snd (login (UserLogin.Make "alice" "worse") with_alice)).
Proof.
  split; [|split].
  - apply (proj1 (proj1 stored_password_is_digest
                    [POST_users alice t1; POST_users alice_again t2; POST_users bob t3])).
  - apply (proj1 (proj2 stored_password_is_digest)
             py_alice (Py.latin1 "other") t1 with_alice).
    vm_compute. reflexivity.
  - apply (proj2 (proj2 stored_password_is_digest) "alice" "wrong" "worse" with_alice).
    vm_compute. reflexivity.
Defined.

(** ** POST /users: what decides the answer *)

Lemma existsb_names username rs :
  existsb (fun name => String.eqb name username) (map users.username rs)
  = existsb (name_is username) rs.
Proof. induction rs as [|r rs IH]; simpl; [reflexivity|]. now rewrite IH. Qed.

(** X4. The answer of POST /users is a 200, a 400 or a 500.  It is a 500
    exactly when one of the three strings does not encode or the table
    is full.  Otherwise it is 400 exactly when some row already carries
    the username, and 200 exactly when none does: the email, the
    password and the time play no part beyond that, and two
    registrations under the same username whose strings encode get the
    same answer on the same table. *)
Theorem registration_decided_by_username
    (user : Py.UserCreate.t) (utcnow : string) (file : table) :
  let answer := respond (snd (Py.create_user user utcnow file)) in
  (status answer = 200 \/ status answer = 400 \/ status answer = 500) /\
  (status answer = 500 <-> encode_user user = None \/ full file) /\
  (forall u : UserCreate.t,
      encode_user user = Some u -> ~ full file ->
      (status answer = 400 <->
       In (UserCreate.username u) (map users.username (rows file))) /\
      (status answer = 200 <->
       ~ In (UserCreate.username u) (map users.username (rows file)))) /\
  (forall (other : Py.UserCreate.t) (utcnow' : string),
      Py.UserCreate.username other = Py.UserCreate.username user ->
      encode_user user <> None -> encode_user other <> None ->
      respond (snd (Py.create_user other utcnow' file)) = answer).
Proof.
  intros answer. subst answer.
  destruct (encode_user user) as [u|] eqn:Hu.
  - destruct (full_dec file) as [Hfull|Hfull].
    + rewrite (py_create_user_full _ _ _ _ Hu Hfull). simpl.
      split; [auto|]. split; [split; auto|]. split; [intros; contradiction|].
      intros other utcnow' _ _ Hother.
      destruct (encode_user other) as [u'|] eqn:Hu'; [|now contradiction Hother].
      rewrite (py_create_user_full _ _ _ _ Hu' Hfull). reflexivity.
    + rewrite (py_create_user_encoded _ _ _ _ Hu Hfull).
      assert (forall other utcnow',
                 Py.UserCreate.username other = Py.UserCreate.username user ->
                 encode_user other <> None ->
                 exists u', Py.create_user other utcnow' file = create_user u' utcnow' file /\
                            UserCreate.username u' = UserCreate.username u) as Hsame.
      { intros other utcnow' Hname Hother.
        destruct (encode_user other) as [u'|] eqn:Hu'; [|now contradiction Hother].
        exists u'. split; [now apply py_create_user_encoded|].
        apply encode_user_some in Hu, Hu'. destruct Hu as (Hn & _), Hu' as (Hn' & _).
        rewrite Hname in Hn'. congruence. }
      destruct (existsb (name_is (UserCreate.username u)) (rows file)) eqn:E.
      * pose proof (existsb_name_true _ _ E) as Hin.
        rewrite create_user_taken by exact E. simpl.
        split; [auto|]. split; [split; [discriminate | intros [H|H]; [discriminate|contradiction]]|].
        split.
        -- intros u0 H0 _. injection H0 as <-. split; split; auto; try discriminate.
           intros H. contradiction.
        -- intros other utcnow' Hname _ Hother.
           destruct (Hsame other utcnow' Hname Hother) as (u' & -> & Hu').
           rewrite create_user_taken; [reflexivity | now rewrite Hu'].
      * pose proof (existsb_name_false _ _ E) as Hnotin.
        rewrite create_user_fresh by exact E. simpl.
        split; [auto|]. split; [split; [discriminate | intros [H|H]; [discriminate|contradiction]]|].
        split.
        -- intros u0 H0 _. injection H0 as <-. split; split; auto; try discriminate.
           intros H. contradiction.
        -- intros other utcnow' Hname _ Hother.
           destruct (Hsame other utcnow' Hname Hother) as (u' & -> & Hu').
           rewrite create_user_fresh; [reflexivity | now rewrite Hu'].
  - rewrite (py_create_user_unencodable _ _ _ Hu). simpl.
    split; [auto|]. split; [split; auto|]. split; [discriminate|].
    intros other utcnow' _ H. now contradiction H.
Qed.

Lemma registration_decided_by_username_witness :
  status (respond (snd (Py.create_user py_alice_again t3 with_alice_bob))) = 400 /\
  status (respond (snd (Py.create_user py_carol t3 with_alice_bob))) = 200 /\
  status (respond (snd (Py.create_user py_dave t3 with_alice_bob))) = 500 /\
  status (respond (snd (Py.create_user py_carol t3 last_id_taken))) = 500 /\
  respond (snd (Py.create_user py_alice_again t3 with_alice_bob))
  = respond (snd (Py.create_user py_alice t1 with_alice_bob)).
Proof.
  assert (~ full with_alice_bob) as Hroom by (vm_compute; intros H; now apply H).
  split; [|split; [|split; [|split]]].
  - apply (proj1 (proj2 (proj2 (registration_decided_by_username
                                  py_alice_again t3 with_alice_bob)))
             alice_again eq_refl Hroom).
    vm_compute. left. reflexivity.
  - apply (proj1 (proj2 (proj2 (registration_decided_by_username
                                  py_carol t3 with_alice_bob)))
             carol ltac:(vm_compute; reflexivity) Hroom).
    vm_compute. intros [H|[H|[]]]; discriminate H.
  - apply (proj1 (proj2 (registration_decided_by_username py_dave t3 with_alice_bob))).
    left. reflexivity.
  - apply (proj1 (proj2 (registration_decided_by_username py_carol t3 last_id_taken))).
    right. vm_compute. discriminate.
  - apply (proj2 (proj2 (proj2 (registration_decided_by_username
                                  py_alice t1 with_alice_bob))) py_alice_again t3).
    + reflexivity.
    + vm_compute. discriminate.
    + vm_compute. discriminate.
Defined.

(** ** Ids and the order of GET /users *)

Lemma py_serve_cons_fst req rest file :
  fst (Py.serve (req :: rest) file) = fst (Py.serve rest (fst (Py.handle req file))).
Proof.
  simpl. destruct (Py.handle req file) as [file1 o]. simpl.
  destruct (Py.serve rest file1) as [file2 rs]. reflexivity.
Qed.

Lemma counted_not_full (file : table) :
  table_ok file -> counted file ->
  (Z.of_nat (List.length (rows file)) < int64_max)%Z -> ~ full file.
Proof.
  intros Hok [_ Hseq] Hlen. unfold full.
  assert (max_rowid (rows file) <= seq file)%Z
    by (apply max_rowid_le; [lia | apply (ids_below_seq _ Hok)]).
  lia.
Qed.

(** One request, on a table that started empty and is not full: what it
    does to the table is told by [expected_accounts]. *)
Lemma py_handle_expected req rest file :
  table_ok file -> counted file ->
  (Z.of_nat (List.length (rows file)) < int64_max)%Z ->
  let file1 := fst (Py.handle req file) in
  table_ok file1 /\ counted file1 /\
  exists new,
    rows file1 = rows file ++ new /\ (List.length new <= 1)%nat /\
    forall accounts,
      Forall2 stored_as accounts (expected_accounts rest (map users.username (rows file1))) ->
      Forall2 stored_as (new ++ accounts)
              (expected_accounts (req :: rest) (map users.username (rows file))).
Proof.
  intros Hok Hc Hlen file1. subst file1.
  assert (forall f, fst (Py.handle req file) = f -> f = file ->
            expected_accounts (req :: rest) (map users.username (rows file))
            = expected_accounts rest (map users.username (rows file)) ->
            table_ok (fst (Py.handle req file)) /\ counted (fst (Py.handle req file)) /\
            exists new,
              rows (fst (Py.handle req file)) = rows file ++ new /\
              (List.length new <= 1)%nat /\
              forall accounts,
                Forall2 stored_as accounts
                  (expected_accounts rest (map users.username (rows (fst (Py.handle req file))))) ->
                Forall2 stored_as (new ++ accounts)
                  (expected_accounts (req :: rest) (map users.username (rows file)))) as Hsame.
  { intros f Hf -> Hexp. rewrite Hf, Hexp. split; [exact Hok|]. split; [exact Hc|].
    exists []. rewrite app_nil_r. split; [reflexivity|]. split; [simpl; lia|]. trivial. }
  pose proof (counted_not_full _ Hok Hc Hlen) as Hroom.
  destruct req as [|user_id|user utcnow|user].
  - apply (Hsame file); reflexivity.
  - apply (Hsame file); [apply get_user_file | reflexivity | reflexivity].
  - cbn [Py.handle expected_accounts].
    destruct (encode_user user) as [u|] eqn:Hu.
    + rewrite (py_create_user_encoded _ _ _ _ Hu Hroom), existsb_names.
      destruct (existsb (name_is (UserCreate.username u)) (rows file)) eqn:E.
      * rewrite create_user_taken by exact E. cbn [fst].
        split; [exact Hok|]. split; [exact Hc|].
        exists []. rewrite app_nil_r. split; [reflexivity|]. split; [simpl; lia|]. trivial.
      * pose proof (handle_ok (POST_users u utcnow) file Hok) as Hok1.
        pose proof (handle_counted (POST_users u utcnow) file Hok Hc) as Hc1.
        cbn [handle] in Hok1, Hc1. rewrite create_user_fresh in * by exact E. cbn [fst] in *.
        split; [exact Hok1|]. split; [exact Hc1|].
        eexists [_]. split; [reflexivity|]. split; [simpl; lia|].
        intros accounts Hacc. cbn [rows] in Hacc. rewrite map_app in Hacc.
        cbn [map users.username] in Hacc.
        constructor; [repeat split | exact Hacc].
    + rewrite (py_create_user_unencodable _ _ _ Hu). cbn [fst].
      split; [exact Hok|]. split; [exact Hc|].
      exists []. rewrite app_nil_r. split; [reflexivity|]. split; [simpl; lia|]. trivial.
  - apply (Hsame file); [apply py_login_file | reflexivity | reflexivity].
Qed.

Lemma py_serve_expected reqs :
  forall file,
    table_ok file -> counted file ->
    (Z.of_nat (List.length (rows file)) + Z.of_nat (List.length reqs) < int64_max)%Z ->
    table_ok (fst (Py.serve reqs file)) /\ counted (fst (Py.serve reqs file)) /\
    exists new,
      rows (fst (Py.serve reqs file)) = rows file ++ new /\
      Forall2 stored_as new (expected_accounts reqs (map users.username (rows file))).
Proof.
  induction reqs as [|req rest IH]; intros file Hok Hc Hlen.
  - split; [exact Hok|]. split; [exact Hc|]. exists []. rewrite app_nil_r.
    split; [reflexivity | constructor].
  - rewrite py_serve_cons_fst. cbn [List.length] in Hlen.
    destruct (py_handle_expected req rest file Hok Hc ltac:(lia))
      as (Hok1 & Hc1 & new1 & Hrows1 & Hlen1 & Hexp).
    destruct (IH (fst (Py.handle req file)) Hok1 Hc1) as (Hok2 & Hc2 & new2 & Hrows2 & Hall2).
    { rewrite Hrows1, length_app. lia. }
    split; [exact Hok2|]. split; [exact Hc2|].
    exists (new1 ++ new2). split; [rewrite Hrows2, Hrows1; apply eq_sym, app_assoc|].
    apply Hexp. exact Hall2.
Qed.

(** C8. From an empty database, whatever requests are served (fewer than
    2^63 - 1 of them, so that the ids do not run out): GET /users lists,
    in the order they were made, the registrations whose strings encode
    and whose username was not taken, the n-th of them with the id n; so
    the ids of the table count 1, 2, 3, ... in creation order, are
    strictly increasing and pairwise distinct, and none is taken from a
    request. *)
Theorem ids_follow_creation_order (reqs : list Py.request) :
  (Z.of_nat (List.length reqs) < int64_max)%Z ->
  let file := fst (Py.serve reqs (init_db None)) in
  let accounts := expected_accounts reqs [] in
  snd (get_users file)
  = Return (JArr (map listed_as (combine (List.seq 1 (List.length accounts)) accounts))) /\
  map users.id (rows file) = map Z.of_nat (List.seq 1 (List.length accounts)) /\
  StronglySorted Z.lt (map users.id (rows file)) /\
  NoDup (map users.id (rows file)).
Proof.
  intros Hlen file accounts.
  destruct (py_serve_expected reqs (init_db None) empty_table_ok counted_empty)
    as (Hok & [Hids _] & new & Hrows & Hall); [simpl; lia|].
  fold file in Hok, Hids, Hrows.
  change (rows (init_db None) ++ new) with new in Hrows.
  change (expected_accounts reqs (map users.username (rows (init_db None))))
    with accounts in Hall.
  rewrite <- Hrows in Hall. pose proof (Forall2_length Hall) as Hn.
  split; [|split; [|split]].
  - unfold get_users, select_users. simpl. rewrite map_map. do 2 f_equal.
    apply (listed_rows _ _ Hall 1%nat Hids).
  - rewrite <- Hn. exact Hids.
  - apply (ids_increasing _ Hok).
  - apply sorted_lt_nodup, (ids_increasing _ Hok).
Qed.

(** Alice, Bob and Carol register in this order.  Alice tries twice, Dave
    sends a password that does not encode, and logins and reads come in
    between: the list shows Alice, Bob and Carol in this order with the
    ids 1, 2, 3. *)
Lemma ids_follow_creation_order_witness :
  snd (get_users
         (fst (Py.serve [Py.POST_users py_alice t1;
                         Py.POST_login (Py.UserLogin.Make (Py.latin1 "alice") (Py.latin1 "x"));
                         Py.POST_users py_bob t2; Py.POST_users py_alice_again t2;
                         Py.POST_users py_dave t2; Py.GET_user 7;
                         Py.POST_users py_carol t3] (init_db None))))
  = Return (JArr [
      JObj [("id", JInt 1); ("username", JStr "alice"); ("email", JStr "a@x.com");
            ("created_at", JStr t1)];
      JObj [("id", JInt 2); ("username", JStr "bob"); ("email", JStr "b@x.com");
            ("created_at", JStr t2)];
      JObj [("id", JInt 3); ("username", JStr "carol"); ("email", JStr "c@x.com");
            ("created_at", JStr t3)]]).
Proof.
  refine (proj1 (ids_follow_creation_order _ _)). vm_compute. reflexivity.
Defined.
